(** * ParrainSport Stripe servers: webhook mapping and session issuing

    A shallow embedding of the Express servers of the repository:
    - [Seo]: index.js, first server (robots/sitemap + optional Stripe);
    - [Sub]: index.js, second server (subscription only, strict env);
    - [Pay]: the one-time payment server with the [/price] route;
    - [PayBasic]: the one-time payment server without it.

    The Stripe SDK and the Supabase data store are external: the SDK is a
    record of functions ([Stripe]), the store is a table held in the
    [World] together with an oracle ([Storage]) saying how each query is
    answered (carried out, answered with an [error] value, or rejected). *)

From Stdlib Require Import ZArith Ascii String.
From stdpp Require Import gmap strings list fin_maps.

Local Open Scope string_scope.
Local Open Scope Z_scope.

(** ** JavaScript values used by the handlers *)

(** A field that holds a string, [null] or [undefined]. [if_truthy v] is the
    string when [v] is truthy in the sense of [if (v)], [!v], [a && b],
    [a || b]: neither nullish nor the empty string. *)
Definition if_truthy (v : option string) : option string :=
  match v with
  | Some s => if String.eqb s "" then None else Some s
  | None => None
  end.

Definition truthy (v : option string) : bool :=
  match if_truthy v with Some _ => true | None => false end.

(** [a || b] on such fields. *)
Definition js_or (a b : option string) : option string :=
  match if_truthy a with Some s => Some s | None => b end.

(** [s.replace(/\/+$/, '')]: drops the run of slashes that ends the string. *)
Fixpoint strip_trailing_slashes (s : string) : string :=
  match s with
  | EmptyString => EmptyString
  | String c rest =>
      let r := strip_trailing_slashes rest in
      if Ascii.eqb c "/"%char && String.eqb r "" then "" else String c r
  end.

(** [['active', 'trialing', 'past_due'].includes(status)] *)
Definition includes (l : list string) (s : string) : bool :=
  existsb (String.eqb s) l.

(** ** Stripe objects carried by a verified event *)

Record Session := {
  session_id : string;
  client_reference_id : option string;
  customer : option string;
  subscription : option string;
  amount_total : option Z;
  metadata_user_id : option string;      (* s.metadata?.user_id *)
  metadata_boost_type : option string    (* s.metadata?.boost_type *)
}.

Record Invoice := { invoice_subscription : option string }.

Record Subscription := { sub_id : string; sub_status : string }.

(** [event.type] together with [event.data.object]. *)
Inductive Event :=
| checkout_session_completed (session : Session)
| invoice_payment_succeeded (inv : Invoice)
| customer_subscription_updated (sub : Subscription)
| customer_subscription_deleted (sub : Subscription)
| other_event (type : string).

(** ** The data store *)

(** A row of [users], keyed by its [id]. The servers of index.js write the
    column [est_booste], the payment servers the column [est_boosté]. In the
    nullable columns [None] is NULL. *)
Record User := {
  stripe_customer_id : option string;
  stripe_subscription_id : option string;
  est_booste : bool;
  est_boosté : bool
}.

(** A row of [paiements]. *)
Record Paiement := {
  id_utilisateur : string;
  montant : Z;
  type : string;
  stripe_payment_id : string
}.

(** [.eq(column, value)] *)
Inductive Filter :=
| eq_id (value : string)
| eq_stripe_subscription_id (value : string).

(** The object given to [.update(...)]: a field that is [None] is not in the
    object; [Some None] writes NULL. *)
Record Patch := {
  set_stripe_customer_id : option (option string);
  set_stripe_subscription_id : option (option string);
  set_est_booste : option bool;
  set_est_boosté : option bool
}.

Inductive Query :=
| select_stripe_customer_id (f : Filter)     (* .select('stripe_customer_id')...maybeSingle() *)
| update (p : Patch) (f : Filter)
| insert_paiement (row : Paiement).

(** How the store answers an awaited query: it carries it out, or resolves
    with [{ error }] and does nothing, or the promise rejects. *)
Inductive Outcome :=
| Served
| Refused (message : string)
| Thrown (message : string).

Definition Storage := Query -> Outcome.

Definition matches (f : Filter) (id : string) (u : User) : bool :=
  match f with
  | eq_id v => String.eqb id v
  | eq_stripe_subscription_id v =>
      match stripe_subscription_id u with
      | Some s => String.eqb s v
      | None => false
      end
  end.

Definition apply_patch (p : Patch) (u : User) : User :=
  {| stripe_customer_id := default (stripe_customer_id u) (set_stripe_customer_id p);
     stripe_subscription_id := default (stripe_subscription_id u) (set_stripe_subscription_id p);
     est_booste := default (est_booste u) (set_est_booste p);
     est_boosté := default (est_boosté u) (set_est_boosté p) |}.

Definition update_rows (p : Patch) (f : Filter) (t : gmap string User) : gmap string User :=
  map_imap (fun id u => Some (if matches f id u then apply_patch p u else u)) t.

(** The rows an update or select with filter [f] touches. *)
Definition matching_rows (f : Filter) (t : gmap string User) : gmap string User :=
  filter (fun kv => matches f kv.1 kv.2 = true) t.

(** ** The Stripe SDK *)

Record CustomerParams := { cp_email : option string; cp_metadata_userId : string }.

Record SessionParams := {
  sp_mode : string;
  sp_customer : option string;
  sp_price : option string;              (* line_items: [{ price, quantity: 1 }] *)
  sp_allow_promotion_codes : bool;
  sp_success_url : string;
  sp_cancel_url : string;
  sp_client_reference_id : string;
  sp_metadata : list (string * option string);   (* a value that is [None] is [null] *)
  sp_locale : option string
}.

(** [inr message] stands for a thrown error with that [err.message]. *)
Record Stripe := {
  constructEvent : string -> option string -> option string -> Event + string;
  customers_create : CustomerParams -> string + string;      (* customer.id *)
  sessions_create : SessionParams -> string + string         (* session.url *)
}.

(** ** The world and the request monad *)

(** [stripe.billingPortal.sessions.create({ customer, return_url })] *)
Record PortalParams := { portal_customer : string; portal_return_url : string }.

Inductive Call :=
| storage_call (q : Query)
| stripe_customers_create (p : CustomerParams)
| stripe_checkout_sessions_create (p : SessionParams)
| stripe_billingPortal_sessions_create (p : PortalParams).

Record World := {
  users : gmap string User;
  paiements : list Paiement;
  trace : list Call              (* external calls issued so far, oldest first *)
}.

Inductive Completion (A : Type) :=
| Normal (a : A)
| Throw (message : string).
Arguments Normal {A} a.
Arguments Throw {A} message.

Definition M (A : Type) := World -> Completion A * World.

Definition ret {A} (a : A) : M A := fun w => (Normal a, w).

Definition bind {A B} (c : M A) (k : A -> M B) : M B := fun w =>
  match c w with
  | (Normal a, w') => k a w'
  | (Throw m, w') => (Throw m, w')
  end.

(** [const x = await c; k] *)
Notation "'let*' x := c 'in' k" := (bind c (fun x => k))
  (at level 10, x name, c at level 100, k at level 200).

(** [throw err], with [err.message = message] *)
Definition throw {A} (message : string) : M A := fun w => (Throw message, w).

(** [try { c } catch (e) { h(e.message) }] *)
Definition try_catch {A} (c : M A) (h : string -> M A) : M A := fun w =>
  match c w with
  | (Normal a, w') => (Normal a, w')
  | (Throw m, w') => h m w'
  end.

Definition log (c : Call) (w : World) : World :=
  {| users := users w; paiements := paiements w; trace := trace w ++ [c] |}.

Definition set_users (t : gmap string User) (w : World) : World :=
  {| users := t; paiements := paiements w; trace := trace w |}.

Definition set_paiements (t : list Paiement) (w : World) : World :=
  {| users := users w; paiements := t; trace := trace w |}.

(** [await supabase.from('users').update(p).eq(...)]; the handlers drop the
    [{ data, error }] it resolves with. *)
Definition users_update (storage : Storage) (p : Patch) (f : Filter) : M unit := fun w =>
  let w := log (storage_call (update p f)) w in
  match storage (update p f) with
  | Served => (Normal tt, set_users (update_rows p f (users w)) w)
  | Refused _ => (Normal tt, w)
  | Thrown m => (Throw m, w)
  end.

(** [await admin.from('paiements').insert(row)] *)
Definition paiements_insert (storage : Storage) (row : Paiement) : M unit := fun w =>
  let w := log (storage_call (insert_paiement row)) w in
  match storage (insert_paiement row) with
  | Served => (Normal tt, set_paiements (paiements w ++ [row]) w)
  | Refused _ => (Normal tt, w)
  | Thrown m => (Throw m, w)
  end.

(** [const { data } = await supabase.from('users').select('stripe_customer_id')
    .eq('id', userId).maybeSingle()]: [data] is the row or [null]. *)
Definition users_select (storage : Storage) (userId : string) : M (option User) := fun w =>
  let w := log (storage_call (select_stripe_customer_id (eq_id userId))) w in
  match storage (select_stripe_customer_id (eq_id userId)) with
  | Served => (Normal (users w !! userId), w)
  | Refused _ => (Normal None, w)
  | Thrown m => (Throw m, w)
  end.

Definition call_customers_create (stripe : Stripe) (p : CustomerParams) : M string := fun w =>
  let w := log (stripe_customers_create p) w in
  match customers_create stripe p with
  | inl id => (Normal id, w)
  | inr m => (Throw m, w)
  end.

Definition call_sessions_create (stripe : Stripe) (p : SessionParams) : M string := fun w =>
  let w := log (stripe_checkout_sessions_create p) w in
  match sessions_create stripe p with
  | inl url => (Normal url, w)
  | inr m => (Throw m, w)
  end.

(** ** Requests, responses, environment *)

Inductive JsonValue :=
| JBool (b : bool)
| JStr (s : string).

(** A flat object literal such as [{ received: true }]. *)
Definition Json := list (string * JsonValue).

Inductive Body :=
| text (s : string)      (* res.send(s) *)
| json (j : Json)        (* res.json(j) *)
| no_body.               (* res.end()   *)

Record Response := { status : Z; body : Body }.

Definition is_2xx (r : Response) : bool := (200 <=? status r) && (status r <? 300).

(** The delivery to [/webhook]: the raw body and the [stripe-signature] header. *)
Record Delivery := { raw_body : string; stripe_signature : option string }.

(** [process.env] *)
Record ProcessEnv := {
  PORT : option string;
  STRIPE_SECRET_KEY : option string;
  STRIPE_PRICE_ID : option string;
  STRIPE_WEBHOOK_SECRET : option string;
  SUPABASE_URL : option string;
  SUPABASE_SERVICE_ROLE_KEY : option string;
  CLIENT_BASE_URL : option string;
  ALLOW_ORIGIN : option string;
  PUBLIC_BASE_URL : option string
}.

(** The JSON body of [POST /create-checkout-session]. For [userId] and
    [email], which the handlers only test for truthiness, [None] is a key
    that is absent or [null]. For [boostType] and [origin], which are also
    read through destructuring defaults, [None] is an absent key and
    [Some None] is [null]. *)
Record CheckoutBody := {
  userId : option string;
  email : option string;
  boostType : option (option string);
  origin : option (option string)
}.

(** [const { f = d } = body]: the default is taken for an absent key only; a
    [null] stays [null]. *)
Definition destructured (d : string) (f : option (option string)) : option string :=
  match f with
  | None => Some d
  | Some v => v
  end.

(** [const { f } = body], as a truthiness test or [||] sees it. *)
Definition present (f : option (option string)) : option string :=
  match f with
  | None => None
  | Some v => v
  end.

(** A string or [null] inside a template literal. *)
Definition js_template (v : option string) : string := default "null" v.

(** What a constructor called at the top level of a server file does: it
    returns the client, or it throws. *)
Inductive Construction :=
| constructed
| construction_throws (message : string).

(** The two constructors the servers call while they start:
    [createClient(url, key, ...)] of the data store and
    [new Stripe(key, ...)]. *)
Record Constructors := {
  createClient : string -> string -> Construction;
  new_Stripe : string -> Construction
}.

(** What running the top level of a server file ends in: the environment
    check calls [process.exit(code)]; or a constructor throws and the module
    dies before [app.listen]; or the file runs to [app.listen], with the
    [stripe] client built or left [null], after a [console.warn] or not. *)
Inductive Startup :=
| exited (code : Z)
| crashed (message : string)
| listening (stripe_built : bool) (warned : bool).

(** [v || d] with a string literal [d]. *)
Definition or_default (v : option string) (d : string) : string :=
  match if_truthy v with Some s => s | None => d end.

(** ** Text pages: escaping, joining, replies

    [nl] is the line feed of a template literal; [dquote] is the double
    quote character. *)
Definition nl : string := String "010"%char EmptyString.

Definition dquote : ascii := "034"%char.

(** [s.replace(/c/g, by)] for a one-character pattern [c]. *)
Fixpoint replace_all (c : ascii) (by_ : string) (s : string) : string :=
  match s with
  | EmptyString => EmptyString
  | String a rest =>
      if Ascii.eqb a c then by_ +:+ replace_all c by_ rest
      else String a (replace_all c by_ rest)
  end.

Definition xmlEscape (s : string) : string :=
  replace_all "'"%char "&apos;"
    (replace_all dquote "&quot;"
       (replace_all ">"%char "&gt;"
          (replace_all "<"%char "&lt;"
             (replace_all "&"%char "&amp;" s)))).

(** [[...s]]: the characters of a string, each as a string. *)
Definition spread (s : string) : list string :=
  map (fun c => String c EmptyString) (list_ascii_of_string s).

(** [l.join('')] *)
Definition join (l : list string) : string := String.concat "" l.

(** A reply that is not JSON: status, [res.type(...)], the [Cache-Control]
    header and the text sent. *)
Record Page := {
  page_status : Z;
  content_type : option string;
  cache_control : option string;
  page_body : string
}.

(** An element of [staticUrls]; [priority] is the number as a template
    prints it, [None] when it is absent or zero. *)
Record StaticUrl := {
  loc : string;
  changefreq : option string;
  priority : option string
}.

(** A row of the sitemap read: [select('id, updated_at')]. *)
Record ProfileRow := { profile_id : string; updated_at : option string }.

(** What the sitemap read resolves with: [{ data, error: null }] ([data] may
    be [null]), [{ data: null, error }], or a rejected promise. *)
Inductive SitemapRead :=
| read_rows (data : option (list ProfileRow))
| read_error (message : string)
| read_thrown (message : string).

(** [rows.map(f)] where [f] may throw: [None] when some call threw. *)
Fixpoint map_or_throw {A B} (f : A -> option B) (l : list A) : option (list B) :=
  match l with
  | [] => Some []
  | x :: rest =>
      match f x with
      | Some y =>
          match map_or_throw f rest with
          | Some ys => Some (y :: ys)
          | None => None
          end
      | None => None
      end
  end.

(** [const { data, error } = await supabase.from('users')
    .select('stripe_customer_id').eq('id', userId).maybeSingle()] *)
Definition users_select_result (storage : Storage) (userId : string)
  : M (option User * option string) := fun w =>
  let w := log (storage_call (select_stripe_customer_id (eq_id userId))) w in
  match storage (select_stripe_customer_id (eq_id userId)) with
  | Served => (Normal (users w !! userId, None), w)
  | Refused m => (Normal (None, Some m), w)
  | Thrown m => (Throw m, w)
  end.

(** [await stripe.billingPortal.sessions.create(p)], giving [portal.url]. *)
Definition call_portal_create (create : PortalParams -> string + string)
    (p : PortalParams) : M string := fun w =>
  let w := log (stripe_billingPortal_sessions_create p) w in
  match create p with
  | inl url => (Normal url, w)
  | inr m => (Throw m, w)
  end.

(** ** The webhook switch of index.js

    The [switch (event.type)] block is the same in both servers of index.js
    (the second one only names [sub.id] and [sub.status] first). *)
Definition switch_event_type (storage : Storage) (event : Event) : M unit :=
  match event with
  | checkout_session_completed session =>
      let userId := client_reference_id session in
      let customerId := customer session in
      let subscriptionId := subscription session in
      match if_truthy userId, if_truthy customerId with
      | Some userId, Some customerId =>
          users_update storage
            {| set_stripe_customer_id := Some (Some customerId);
               set_stripe_subscription_id := Some subscriptionId;
               set_est_booste := Some true;
               set_est_boosté := None |}
            (eq_id userId)
      | _, _ => ret tt
      end
  | invoice_payment_succeeded inv =>
      let subscriptionId := invoice_subscription inv in
      match if_truthy subscriptionId with
      | Some subscriptionId =>
          users_update storage
            {| set_stripe_customer_id := None;
               set_stripe_subscription_id := None;
               set_est_booste := Some true;
               set_est_boosté := None |}
            (eq_stripe_subscription_id subscriptionId)
      | None => ret tt
      end
  | customer_subscription_updated sub =>
      let active := includes ["active"; "trialing"; "past_due"] (sub_status sub) in
      users_update storage
        {| set_stripe_customer_id := None;
           set_stripe_subscription_id := Some (Some (sub_id sub));
           set_est_booste := Some active;
           set_est_boosté := None |}
        (eq_stripe_subscription_id (sub_id sub))
  | customer_subscription_deleted sub =>
      users_update storage
        {| set_stripe_customer_id := None;
           set_stripe_subscription_id := None;
           set_est_booste := Some false;
           set_est_boosté := None |}
        (eq_stripe_subscription_id (sub_id sub))
  | other_event _ => ret tt
  end.

Definition received : Response :=
  {| status := 200; body := json [("received", JBool true)] |}.

Definition server_error : Response :=
  {| status := 500; body := json [("error", JStr "server error")] |}.

Definition signature_rejection (message : string) : Response :=
  {| status := 400; body := text ("Webhook Error: " +:+ message) |}.

(** ** index.js, first server (SEO + Stripe) *)
Module Seo.
Section Server.
Variable env : ProcessEnv.
Variable sdk : Stripe.          (* new Stripe(STRIPE_SECRET_KEY, ...) *)
Variable storage : Storage.

Definition client_base_url : string :=
  default "http://localhost:5173" (CLIENT_BASE_URL env).

Definition startup (lib : Constructors) : Startup :=
  match if_truthy (SUPABASE_URL env), if_truthy (SUPABASE_SERVICE_ROLE_KEY env) with
  | Some url, Some key =>
      match createClient lib url key with
      | construction_throws message => crashed message
      | constructed =>
          let warned :=
            negb (truthy (STRIPE_SECRET_KEY env)) || negb (truthy (STRIPE_PRICE_ID env))
            || negb (truthy (STRIPE_WEBHOOK_SECRET env)) in
          match if_truthy (STRIPE_SECRET_KEY env) with
          | Some secret =>
              match new_Stripe lib secret with
              | construction_throws message => crashed message
              | constructed => listening true warned
              end
          | None => listening false warned
          end
      end
  | _, _ => exited 1
  end.

(** [const stripe = STRIPE_SECRET_KEY ? new Stripe(...) : null] *)
Definition stripe : option Stripe :=
  if truthy (STRIPE_SECRET_KEY env) then Some sdk else None.

Definition webhook (req : Delivery) : M Response :=
  match stripe with
  | None => ret {| status := 501; body := text "Stripe not configured" |}
  | Some stripe =>
      match constructEvent stripe (raw_body req) (stripe_signature req)
              (STRIPE_WEBHOOK_SECRET env) with
      | inr message => ret (signature_rejection message)
      | inl event =>
          try_catch
            (let* _ := switch_event_type storage event in ret received)
            (fun _ => ret server_error)
      end
  end.

Definition create_checkout_session (req : CheckoutBody) : M Response :=
  try_catch
    (match stripe with
     | None => ret {| status := 501; body := json [("error", JStr "Stripe not configured")] |}
     | Some stripe =>
         match if_truthy (userId req) with
         | None => ret {| status := 400; body := json [("error", JStr "userId required")] |}
         | Some userId =>
             let* u := users_select storage userId in
             let customerId := u ≫= stripe_customer_id in
             let* customerId :=
               match if_truthy customerId with
               | Some customerId => ret customerId
               | None =>
                   let* customer :=
                     call_customers_create stripe
                       {| cp_email := if_truthy (email req);
                          cp_metadata_userId := userId |} in
                   let* _ :=
                     users_update storage
                       {| set_stripe_customer_id := Some (Some customer);
                          set_stripe_subscription_id := None;
                          set_est_booste := None;
                          set_est_boosté := None |}
                       (eq_id userId) in
                   ret customer
               end in
             let* url :=
               call_sessions_create stripe
                 {| sp_mode := "subscription";
                    sp_customer := Some customerId;
                    sp_price := STRIPE_PRICE_ID env;
                    sp_allow_promotion_codes := true;
                    sp_success_url :=
                      strip_trailing_slashes client_base_url
                      +:+ "/success?session_id={CHECKOUT_SESSION_ID}";
                    sp_cancel_url := strip_trailing_slashes client_base_url +:+ "/profil";
                    sp_client_reference_id := userId;
                    sp_metadata := [("origin", Some "parrainsport-boost")];
                    sp_locale := None |} in
             ret {| status := 200; body := json [("url", JStr url)] |}
         end
     end)
    (fun _ => ret server_error).

(** [stripe.billingPortal.sessions.create] of the client *)
Variable billingPortal_sessions_create : PortalParams -> string + string.

Definition create_portal_session (req : CheckoutBody) : M Response :=
  try_catch
    (match stripe with
     | None => ret {| status := 501; body := json [("error", JStr "Stripe not configured")] |}
     | Some _ =>
         match if_truthy (userId req) with
         | None => ret {| status := 400; body := json [("error", JStr "userId required")] |}
         | Some userId =>
             let* read := users_select_result storage userId in
             let u := read.1 in
             let error := read.2 in
             match error, if_truthy (u ≫= stripe_customer_id) with
             | None, Some customer =>
                 let* url :=
                   call_portal_create billingPortal_sessions_create
                     {| portal_customer := customer;
                        portal_return_url :=
                          strip_trailing_slashes client_base_url +:+ "/profil" |} in
                 ret {| status := 200; body := json [("url", JStr url)] |}
             | _, _ => ret {| status := 400; body := json [("error", JStr "No customer")] |}
             end
         end
     end)
    (fun _ => ret server_error).

Definition public_base_url : string :=
  default "https://parrainagesport.fr" (PUBLIC_BASE_URL env).

Definition robots_txt : Page :=
  {| page_status := 200;
     content_type := Some "text/plain";
     cache_control := None;
     page_body :=
       "User-agent: *" +:+ nl +:+
       "Allow: /" +:+ nl +:+
       "Sitemap: " +:+ strip_trailing_slashes public_base_url +:+ "/sitemap.xml" +:+ nl |}.

(** The callback of [staticUrls.map(...)]. *)
Definition static_entry (u : StaticUrl) : string :=
  nl +:+ "  <url>" +:+ nl +:+
  "    <loc>" +:+ xmlEscape (loc u) +:+ "</loc>" +:+ nl +:+
  "    " +:+ match if_truthy (changefreq u) with
             | Some c => "<changefreq>" +:+ c +:+ "</changefreq>"
             | None => ""
             end +:+ nl +:+
  "    " +:+ match priority u with
             | Some p => "<priority>" +:+ p +:+ "</priority>"
             | None => ""
             end +:+ nl +:+
  "  </url>".

(** One element of [users.map(...)]; [toISOString d] is
    [new Date(d).toISOString()], [None] when it throws. *)
Definition profile_entry (toISOString : string -> option string) (u : ProfileRow)
  : option string :=
  match
    match if_truthy (updated_at u) with
    | Some d =>
        match toISOString d with
        | Some iso => Some ("<lastmod>" +:+ iso +:+ "</lastmod>")
        | None => None
        end
    | None => Some ""
    end
  with
  | Some lastmod =>
      Some (nl +:+ "  <url>" +:+ nl +:+
            "    <loc>" +:+
            xmlEscape (strip_trailing_slashes public_base_url +:+ "/p/" +:+ profile_id u)
            +:+ "</loc>" +:+ nl +:+
            "    " +:+ lastmod +:+ nl +:+
            "    <changefreq>monthly</changefreq>" +:+ nl +:+
            "    <priority>0.8</priority>" +:+ nl +:+
            "  </url>")
  | None => None
  end.

Definition sitemap_document (urlsXml : string) : string :=
  "<?xml version=" +:+ String dquote "1.0" +:+ String dquote " encoding="
  +:+ String dquote "UTF-8" +:+ String dquote "?>" +:+ nl +:+
  "<urlset" +:+ nl +:+
  "  xmlns=" +:+ String dquote "http://www.sitemaps.org/schemas/sitemap/0.9"
  +:+ String dquote EmptyString +:+ nl +:+
  "  xmlns:xhtml=" +:+ String dquote "http://www.w3.org/1999/xhtml"
  +:+ String dquote EmptyString +:+ nl +:+
  ">" +:+ nl +:+
  urlsXml +:+ nl +:+
  "</urlset>".

Definition sitemap_xml (toISOString : string -> option string) (read : SitemapRead) : Page :=
  match
    match read with
    | read_rows users =>
        let staticUrls :=
          [ {| loc := public_base_url +:+ "/";
               changefreq := Some "weekly";
               priority := Some "0.8" |} ] in
        match map_or_throw (profile_entry toISOString) (default [] users) with
        | Some entries =>
            let urlsXml :=
              join (spread (join (map static_entry staticUrls))
                    ++ spread (join entries)) in
            Some (sitemap_document urlsXml)
        | None => None
        end
    | read_error _ => None
    | read_thrown _ => None
    end
  with
  | Some xml =>
      {| page_status := 200;
         content_type := Some "application/xml";
         cache_control := Some "public, max-age=3600";
         page_body := xml |}
  | None =>
      {| page_status := 500;
         content_type := None;
         cache_control := None;
         page_body := "sitemap unavailable" |}
  end.
End Server.
End Seo.

(** ** index.js, second server (subscription only) *)
Module Sub.
Section Server.
Variable env : ProcessEnv.
Variable sdk : Stripe.
Variable storage : Storage.

Definition client_base_url : string :=
  default "http://localhost:5173" (CLIENT_BASE_URL env).

Definition startup (lib : Constructors) : Startup :=
  match if_truthy (STRIPE_SECRET_KEY env), if_truthy (STRIPE_PRICE_ID env),
        if_truthy (STRIPE_WEBHOOK_SECRET env), if_truthy (SUPABASE_URL env),
        if_truthy (SUPABASE_SERVICE_ROLE_KEY env) with
  | Some secret, Some _, Some _, Some url, Some key =>
      match new_Stripe lib secret with
      | construction_throws message => crashed message
      | constructed =>
          match createClient lib url key with
          | construction_throws message => crashed message
          | constructed => listening true false
          end
      end
  | _, _, _, _, _ => exited 1
  end.

Definition webhook (req : Delivery) : M Response :=
  match constructEvent sdk (raw_body req) (stripe_signature req)
          (STRIPE_WEBHOOK_SECRET env) with
  | inr message => ret (signature_rejection message)
  | inl event =>
      try_catch
        (let* _ := switch_event_type storage event in ret received)
        (fun _ => ret server_error)
  end.

Definition create_checkout_session (req : CheckoutBody) : M Response :=
  try_catch
    (match if_truthy (userId req) with
     | None => ret {| status := 400; body := json [("error", JStr "userId required")] |}
     | Some userId =>
         let* userRow := users_select storage userId in
         let customerId := userRow ≫= stripe_customer_id in
         let* customerId :=
           match if_truthy customerId with
           | Some customerId => ret customerId
           | None =>
               let* customer :=
                 call_customers_create sdk
                   {| cp_email := if_truthy (email req);
                      cp_metadata_userId := userId |} in
               let* _ :=
                 users_update storage
                   {| set_stripe_customer_id := Some (Some customer);
                      set_stripe_subscription_id := None;
                      set_est_booste := None;
                      set_est_boosté := None |}
                   (eq_id userId) in
               ret customer
           end in
         let* url :=
           call_sessions_create sdk
             {| sp_mode := "subscription";
                sp_customer := Some customerId;
                sp_price := STRIPE_PRICE_ID env;
                sp_allow_promotion_codes := true;
                sp_success_url :=
                  client_base_url +:+ "/success?session_id={CHECKOUT_SESSION_ID}";
                sp_cancel_url := client_base_url +:+ "/profil";
                sp_client_reference_id := userId;
                sp_metadata := [("origin", Some "parrainsport-boost")];
                sp_locale := None |} in
         ret {| status := 200; body := json [("url", JStr url)] |}
     end)
    (fun _ => ret server_error).

(** [stripe.billingPortal.sessions.create] of the client *)
Variable billingPortal_sessions_create : PortalParams -> string + string.

Definition create_portal_session (req : CheckoutBody) : M Response :=
  try_catch
    (match if_truthy (userId req) with
     | None => ret {| status := 400; body := json [("error", JStr "userId required")] |}
     | Some userId =>
         let* read := users_select_result storage userId in
         let u := read.1 in
         let error := read.2 in
         match error, if_truthy (u ≫= stripe_customer_id) with
         | None, Some customer =>
             let* url :=
               call_portal_create billingPortal_sessions_create
                 {| portal_customer := customer;
                    portal_return_url := client_base_url +:+ "/profil" |} in
             ret {| status := 200; body := json [("url", JStr url)] |}
         | _, _ => ret {| status := 400; body := json [("error", JStr "No customer")] |}
         end
     end)
    (fun _ => ret server_error).
End Server.
End Sub.

(** ** The one-time payment server with the [/price] route *)
Module Pay.
Section Server.
Variable env : ProcessEnv.
Variable sdk : Stripe.
Variable storage : Storage.

Definition create_checkout_session (req : CheckoutBody) : M Response :=
  try_catch
    (match if_truthy (userId req) with
     | None => ret {| status := 400; body := json [("error", JStr "Missing userId")] |}
     | Some userId =>
         let boostType := destructured "adherent" (boostType req) in
         let origin := present (origin req) in
         let success :=
           or_default origin "https://app.parrainsport.fr"
           +:+ "/success?session_id={CHECKOUT_SESSION_ID}" in
         let cancel :=
           or_default origin "https://app.parrainsport.fr" +:+ "/profile" in
         let* url :=
           call_sessions_create sdk
             {| sp_mode := "payment";
                sp_customer := None;
                sp_price := STRIPE_PRICE_ID env;
                sp_allow_promotion_codes := false;
                sp_success_url := success;
                sp_cancel_url := cancel;
                sp_client_reference_id := userId;
                sp_metadata := [("user_id", Some userId); ("boost_type", boostType)];
                sp_locale := Some "fr" |} in
         ret {| status := 200; body := json [("url", JStr url)] |}
     end)
    (fun message => ret {| status := 500; body := json [("error", JStr message)] |}).

Definition webhook (req : Delivery) : M Response :=
  let sig := stripe_signature req in
  match constructEvent sdk (raw_body req) sig (STRIPE_WEBHOOK_SECRET env) with
  | inr message => ret (signature_rejection message)
  | inl event =>
      try_catch
        (let* _ :=
           match event with
           | checkout_session_completed s =>
               let userId := js_or (client_reference_id s) (metadata_user_id s) in
               let amount := default 0 (amount_total s) in
               let boostType :=
                 if bool_decide (metadata_boost_type s = Some "coach")
                 then "boost coach" else "boost adherent" in
               match if_truthy userId with
               | Some userId =>
                   let* _ :=
                     paiements_insert storage
                       {| id_utilisateur := userId;
                          montant := amount;
                          type := boostType;
                          stripe_payment_id := session_id s |} in
                   users_update storage
                     {| set_stripe_customer_id := None;
                        set_stripe_subscription_id := None;
                        set_est_booste := None;
                        set_est_boosté := Some true |}
                     (eq_id userId)
               | None => ret tt
               end
           | _ => ret tt
           end in
         ret {| status := 200; body := no_body |})
        (fun _ => ret {| status := 500; body := no_body |})
  end.
End Server.
End Pay.

(** ** The one-time payment server without the [/price] route

    One [try] block holds the whole webhook, so that every thrown error,
    from [constructEvent] or from the store, is answered the same way. *)
Module PayBasic.
Section Server.
Variable env : ProcessEnv.
Variable sdk : Stripe.
Variable storage : Storage.

Definition create_checkout_session (req : CheckoutBody) : M Response :=
  try_catch
    (let boostType := destructured "adherent" (boostType req) in
     let origin := destructured "https://app.parrainsport.fr" (origin req) in
     match if_truthy (userId req) with
     | None => ret {| status := 400; body := json [("error", JStr "Missing userId")] |}
     | Some userId =>
         let* url :=
           call_sessions_create sdk
             {| sp_mode := "payment";
                sp_customer := None;
                sp_price := STRIPE_PRICE_ID env;
                sp_allow_promotion_codes := false;
                sp_success_url :=
                  js_template origin +:+ "/success?session_id={CHECKOUT_SESSION_ID}";
                sp_cancel_url := js_template origin +:+ "/profile";
                sp_client_reference_id := userId;
                sp_metadata := [("user_id", Some userId); ("boost_type", boostType)];
                sp_locale := Some "fr" |} in
         ret {| status := 200; body := json [("url", JStr url)] |}
     end)
    (fun message => ret {| status := 500; body := json [("error", JStr message)] |}).

Definition webhook (req : Delivery) : M Response :=
  try_catch
    (let sig := stripe_signature req in
     let* event :=
       match constructEvent sdk (raw_body req) sig (STRIPE_WEBHOOK_SECRET env) with
       | inl event => ret event
       | inr message => throw message
       end in
     let* _ :=
       match event with
       | checkout_session_completed s =>
           let userId := js_or (client_reference_id s) (metadata_user_id s) in
           let amount := default 0 (amount_total s) in
           let boostType :=
             if bool_decide (metadata_boost_type s = Some "coach")
             then "boost coach" else "boost adherent" in
           match if_truthy userId with
           | Some userId =>
               let* _ :=
                 paiements_insert storage
                   {| id_utilisateur := userId;
                      montant := amount;
                      type := boostType;
                      stripe_payment_id := session_id s |} in
               users_update storage
                 {| set_stripe_customer_id := None;
                    set_stripe_subscription_id := None;
                    set_est_booste := None;
                    set_est_boosté := Some true |}
                 (eq_id userId)
           | None => ret tt
           end
       | _ => ret tt
       end in
     ret {| status := 200; body := no_body |})
    (fun message => ret (signature_rejection message)).
End Server.
End PayBasic.

(** ** Vocabulary of the statements *)

(** The two servers of index.js. The first builds its Stripe client only when
    the secret key is set. *)
Inductive Server := seo | sub.

Definition configured (s : Server) (env : ProcessEnv) : bool :=
  match s with
  | seo => truthy (STRIPE_SECRET_KEY env)
  | sub => true
  end.

Definition index_webhook (s : Server) :
  ProcessEnv -> Stripe -> Storage -> Delivery -> M Response :=
  match s with seo => Seo.webhook | sub => Sub.webhook end.

Definition index_create_checkout_session (s : Server) :
  ProcessEnv -> Stripe -> Storage -> CheckoutBody -> M Response :=
  match s with seo => Seo.create_checkout_session | sub => Sub.create_checkout_session end.

Definition index_startup (s : Server) : ProcessEnv -> Constructors -> Startup :=
  match s with seo => Seo.startup | sub => Sub.startup end.

(** The [paiements] row the payment servers insert for a completed session
    of account [userId]. *)
Definition logged_payment (userId : string) (s : Session) : Paiement :=
  {| id_utilisateur := userId;
     montant := default 0 (amount_total s);
     type := if bool_decide (metadata_boost_type s = Some "coach")
             then "boost coach" else "boost adherent";
     stripe_payment_id := session_id s |}.

(** [constructEvent] accepts the delivery and yields [event]. *)
Definition verified (sdk : Stripe) (env : ProcessEnv) (req : Delivery) (event : Event) : Prop :=
  constructEvent sdk (raw_body req) (stripe_signature req) (STRIPE_WEBHOOK_SECRET env)
  = inl event.

(** [constructEvent] throws an error with this message. *)
Definition rejected (sdk : Stripe) (env : ProcessEnv) (req : Delivery) (message : string) : Prop :=
  constructEvent sdk (raw_body req) (stripe_signature req) (STRIPE_WEBHOOK_SECRET env)
  = inr message.

(** ** Stand-ins for the surroundings, to run the handlers on concrete inputs *)

Definition all_served : Storage := fun _ => Served.

Definition rejecting (message : string) : Storage := fun _ => Thrown message.

Definition empty_env : ProcessEnv :=
  {| PORT := None; STRIPE_SECRET_KEY := None; STRIPE_PRICE_ID := None;
     STRIPE_WEBHOOK_SECRET := None; SUPABASE_URL := None;
     SUPABASE_SERVICE_ROLE_KEY := None; CLIENT_BASE_URL := None;
     ALLOW_ORIGIN := None; PUBLIC_BASE_URL := None |}.

Definition full_env : ProcessEnv :=
  {| PORT := None; STRIPE_SECRET_KEY := Some "sk_test_1"; STRIPE_PRICE_ID := Some "price_1";
     STRIPE_WEBHOOK_SECRET := Some "whsec_1"; SUPABASE_URL := Some "https://db.example";
     SUPABASE_SERVICE_ROLE_KEY := Some "service_1"; CLIENT_BASE_URL := None;
     ALLOW_ORIGIN := None; PUBLIC_BASE_URL := None |}.

(** Constructors that accept what the libraries accept: [createClient]
    throws on a URL that is not an HTTP(S) one, [new Stripe] takes any key. *)
Definition sample_constructors : Constructors :=
  {| createClient url _ :=
       if String.prefix "http" url then constructed
       else construction_throws "Invalid supabaseUrl: Must be a valid HTTP or HTTPS URL.";
     new_Stripe _ := constructed |}.

(** The store URL is set, to something that is not a URL. *)
Definition bad_url_env : ProcessEnv :=
  {| PORT := None; STRIPE_SECRET_KEY := Some "sk_test_1"; STRIPE_PRICE_ID := Some "price_1";
     STRIPE_WEBHOOK_SECRET := Some "whsec_1"; SUPABASE_URL := Some "db.example";
     SUPABASE_SERVICE_ROLE_KEY := Some "service_1"; CLIENT_BASE_URL := None;
     ALLOW_ORIGIN := None; PUBLIC_BASE_URL := None |}.

(** Only the data store is configured. *)
Definition store_only_env : ProcessEnv :=
  {| PORT := None; STRIPE_SECRET_KEY := None; STRIPE_PRICE_ID := None;
     STRIPE_WEBHOOK_SECRET := None; SUPABASE_URL := Some "https://db.example";
     SUPABASE_SERVICE_ROLE_KEY := Some "service_1"; CLIENT_BASE_URL := None;
     ALLOW_ORIGIN := None; PUBLIC_BASE_URL := None |}.

(** An SDK that accepts the header spelling the secret and then decodes the
    body with [decode]; a missing header and a wrong one are reported with
    the two messages stripe-node has for them. *)
Definition sample_sdk (decode : string -> Event) : Stripe :=
  {| constructEvent body sig secret :=
       match sig with
       | None => inr "No stripe-signature header value was provided."
       | Some h =>
           if String.eqb h ("v1=" +:+ default "" secret) then inl (decode body)
           else inr "No signatures found matching the expected signature for payload."
       end;
     customers_create _ := inl "cus_1";
     sessions_create _ := inl "https://checkout.stripe.com/c/cs_1" |}.

Definition yields (event : Event) : Stripe := sample_sdk (fun _ => event).

Definition signed (body : string) : Delivery :=
  {| raw_body := body; stripe_signature := Some "v1=whsec_1" |}.

Definition blank_user : User :=
  {| stripe_customer_id := None; stripe_subscription_id := None;
     est_booste := false; est_boosté := false |}.

Definition subscriber (customer_id subscription_id : string) (boosted : bool) : User :=
  {| stripe_customer_id := Some customer_id;
     stripe_subscription_id := Some subscription_id;
     est_booste := boosted;
     est_boosté := false |}.

Definition world_of (t : gmap string User) : World :=
  {| users := t; paiements := []; trace := [] |}.

(** One account, [u1], with customer [cus_1]. *)
Definition one_subscriber (subscription_id : option string) (boosted : bool) : World :=
  world_of {[ "u1" := {| stripe_customer_id := Some "cus_1";
                         stripe_subscription_id := subscription_id;
                         est_booste := boosted;
                         est_boosté := false |} ]}.

Definition sample_subscription (status : string) : Subscription :=
  {| sub_id := "sub_1"; sub_status := status |}.

(** Reads the body as the new status of subscription [sub_1]. *)
Definition status_update (body : string) : Event :=
  customer_subscription_updated (sample_subscription body).

Definition sample_session (ref cust subs : option string) : Session :=
  {| session_id := "cs_1"; client_reference_id := ref; customer := cust;
     subscription := subs; amount_total := Some 990;
     metadata_user_id := None; metadata_boost_type := None |}.

(** The [paiements] row the payment server logs for [sample_session]. *)
Definition sample_paiement : Paiement :=
  {| id_utilisateur := "u1"; montant := 990; type := "boost adherent";
     stripe_payment_id := "cs_1" |}.

(** [n] slashes. *)
Fixpoint slashes (n : nat) : string :=
  match n with
  | O => EmptyString
  | S n => String "/"%char (slashes n)
  end.

(** The events that address accounts through the stored subscription id
    [sid]. *)
Definition keyed_by (sid : string) (e : Event) : Prop :=
  match e with
  | invoice_payment_succeeded inv => if_truthy (invoice_subscription inv) = Some sid
  | customer_subscription_updated subscription => sub_id subscription = sid
  | customer_subscription_deleted subscription => sub_id subscription = sid
  | _ => False
  end.

Definition index_create_portal_session (s : Server) :
  ProcessEnv -> Stripe -> Storage -> (PortalParams -> string + string) ->
  CheckoutBody -> M Response :=
  match s with
  | seo => Seo.create_portal_session
  | sub => fun env _ => Sub.create_portal_session env
  end.

(** The shape of the patches the index.js webhook sends for an event keyed
    by the subscription id [sid]: the flag [est_booste] is written, the
    stored subscription id is left or rewritten to [sid], nothing else. *)
Definition subscription_patch (sid : string) (p : Patch) : Prop :=
  set_stripe_customer_id p = None /\
  set_est_boosté p = None /\
  (exists b, set_est_booste p = Some b) /\
  (set_stripe_subscription_id p = None \/ set_stripe_subscription_id p = Some (Some sid)).

(** The sitemap read failed, or a row carries a date that [toISOString]
    throws on. *)
Definition sitemap_fails (toISOString : string -> option string) (read : SitemapRead) : Prop :=
  (exists m, read = read_error m \/ read = read_thrown m) \/
  (exists data u d,
      read = read_rows (Some data) /\ In u data /\
      if_truthy (updated_at u) = Some d /\ toISOString d = None).

(** A date routine that only knows one timestamp. *)
Definition sample_toISOString (d : string) : option string :=
  if String.eqb d "2024-05-01 10:00:00+00" then Some "2024-05-01T10:00:00.000Z" else None.

(** A portal that answers with a fixed link, and one that always throws. *)
Definition sample_portal : PortalParams -> string + string :=
  fun _ => inl "https://billing.stripe.com/p/session/1".

Definition failing_portal : PortalParams -> string + string :=
  fun _ => inr "portal unavailable".

(** * Properties *)

(** ** The JavaScript helpers on small inputs *)

Example strip_trailing_slashes_run :
  strip_trailing_slashes "http://localhost:5173//" = "http://localhost:5173".
Proof. reflexivity. Qed.

Example strip_trailing_slashes_inner :
  strip_trailing_slashes "https://a/b/" = "https://a/b".
Proof. reflexivity. Qed.

Example strip_trailing_slashes_only : strip_trailing_slashes "///" = "".
Proof. reflexivity. Qed.

Example empty_string_is_falsy : truthy (Some "") = false /\ truthy None = false.
Proof. split; reflexivity. Qed.

Example js_or_falls_back : js_or (Some "") (Some "u2") = Some "u2".
Proof. reflexivity. Qed.

Example includes_canceled :
  includes ["active"; "trialing"; "past_due"] "canceled" = false.
Proof. reflexivity. Qed.

Lemma strip_trailing_slashes_idem s :
  strip_trailing_slashes (strip_trailing_slashes s) = strip_trailing_slashes s.
Proof.
  induction s as [|c rest IH]; [reflexivity|]. simpl.
  destruct (Ascii.eqb c "/" && String.eqb (strip_trailing_slashes rest) "") eqn:Hc.
  - reflexivity.
  - simpl. rewrite IH, Hc. reflexivity.
Qed.

(** ** The store *)

Lemma lookup_update_rows p f (t : gmap string User) id :
  update_rows p f t !! id
  = (fun u => if matches f id u then apply_patch p u else u) <$> (t !! id).
Proof.
  unfold update_rows. rewrite map_lookup_imap.
  destruct (t !! id); reflexivity.
Qed.

(** Filtering on the key is a point update. *)
Lemma update_rows_eq_id p v (t : gmap string User) :
  update_rows p (eq_id v) t = alter (apply_patch p) v t.
Proof.
  apply map_eq; intros id. rewrite lookup_update_rows, lookup_alter.
  simpl. destruct (String.eqb_spec id v) as [->|Hne].
  - rewrite decide_True by done. destruct (t !! v); reflexivity.
  - rewrite decide_False by congruence. destruct (t !! id); reflexivity.
Qed.

Lemma update_rows_no_match p f (t : gmap string User) :
  (forall id u, t !! id = Some u -> matches f id u = false) ->
  update_rows p f t = t.
Proof.
  intros Hno. apply map_eq; intros id. rewrite lookup_update_rows.
  destruct (t !! id) as [u|] eqn:Hu; [|reflexivity].
  simpl. rewrite (Hno id u Hu). reflexivity.
Qed.

Lemma matching_rows_empty f (t : gmap string User) :
  (forall id u, t !! id = Some u -> matches f id u = false) ->
  matching_rows f t = ∅.
Proof.
  intros Hno. unfold matching_rows. apply map_empty_filter.
  intros id u Hu; simpl. rewrite (Hno id u Hu). discriminate.
Qed.

Lemma matches_subscription v id u :
  matches (eq_stripe_subscription_id v) id u = true <-> stripe_subscription_id u = Some v.
Proof.
  simpl. destruct (stripe_subscription_id u) as [s|]; [|split; discriminate].
  rewrite String.eqb_eq. split; congruence.
Qed.

Lemma if_truthy_Some v s : if_truthy v = Some s <-> v = Some s /\ s <> "".
Proof.
  unfold if_truthy. destruct v as [x|]; [|split; [discriminate|intros [? _]; discriminate]].
  destruct (String.eqb_spec x "") as [->|Hne]; split.
  - discriminate.
  - intros [[= <-] Hs]. contradiction.
  - intros [= <-]. split; [reflexivity|assumption].
  - intros [[= <-] _]. reflexivity.
Qed.

Lemma includes_entitling status :
  includes ["active"; "trialing"; "past_due"] status = true
  <-> status = "active" \/ status = "trialing" \/ status = "past_due".
Proof.
  unfold includes; simpl. rewrite !orb_true_iff, !String.eqb_eq.
  split; [intros [?|[?|[?|?]]]|intros [?|[?|?]]]; auto; discriminate.
Qed.

(** ** The webhook of index.js after verification *)

Lemma index_webhook_verified s env sdk storage req event w :
  configured s env = true ->
  verified sdk env req event ->
  index_webhook s env sdk storage req w
  = try_catch (let* _ := switch_event_type storage event in ret received)
      (fun _ => ret server_error) w.
Proof.
  unfold verified. intros Hconf Hver.
  destruct s; simpl in *.
  - unfold Seo.webhook, Seo.stripe. rewrite Hconf, Hver. reflexivity.
  - unfold Sub.webhook. rewrite Hver. reflexivity.
Qed.

(** One awaited update followed by the acknowledgement. *)
Lemma acknowledge_update storage p f w :
  try_catch (let* _ := users_update storage p f in ret received)
    (fun _ => ret server_error) w
  = match storage (update p f) with
    | Served =>
        (Normal received,
         set_users (update_rows p f (users w)) (log (storage_call (update p f)) w))
    | Refused _ => (Normal received, log (storage_call (update p f)) w)
    | Thrown _ => (Normal server_error, log (storage_call (update p f)) w)
    end.
Proof.
  unfold try_catch, bind, users_update, ret.
  destruct (storage (update p f)); reflexivity.
Qed.

Lemma acknowledge_nothing w :
  try_catch (let* _ := ret tt in ret received) (fun _ => ret server_error) w
  = (Normal received, w).
Proof. reflexivity. Qed.

(** C4: a verified [customer.subscription.deleted] event, once the store
    carries out the update it triggers, leaves every account whose stored
    [stripe_subscription_id] is the event's subscription id with
    [est_booste = false], whatever the flag was before; the delivery is
    acknowledged and the other accounts are untouched. *)
Theorem C4_subscription_deleted_revokes s env sdk storage req sub w :
  configured s env = true ->
  verified sdk env req (customer_subscription_deleted sub) ->
  storage (update {| set_stripe_customer_id := None;
                     set_stripe_subscription_id := None;
                     set_est_booste := Some false;
                     set_est_boosté := None |}
             (eq_stripe_subscription_id (sub_id sub))) = Served ->
  exists w',
    index_webhook s env sdk storage req w
      = (Normal {| status := 200; body := json [("received", JBool true)] |}, w') /\
    forall id u, users w !! id = Some u ->
      (stripe_subscription_id u = Some (sub_id sub) ->
       users w' !! id = Some {| stripe_customer_id := stripe_customer_id u;
                                stripe_subscription_id := stripe_subscription_id u;
                                est_booste := false;
                                est_boosté := est_boosté u |}) /\
      (stripe_subscription_id u <> Some (sub_id sub) -> users w' !! id = Some u).
Proof.
  intros Hconf Hver Hserved.
  rewrite (index_webhook_verified _ _ _ _ _ _ _ Hconf Hver). simpl.
  rewrite acknowledge_update, Hserved.
  eexists; split; [reflexivity|].
  intros id u Hu. simpl. rewrite lookup_update_rows, Hu. simpl.
  split; intros Hsub.
  - rewrite Hsub, String.eqb_refl. unfold apply_patch; simpl. rewrite Hsub. reflexivity.
  - destruct (stripe_subscription_id u) as [x|]; [|reflexivity].
    destruct (String.eqb_spec x (sub_id sub)); [congruence|reflexivity].
Qed.

Lemma C4_subscription_deleted_revokes_witness :
  exists w',
    index_webhook seo full_env
      (yields (customer_subscription_deleted (sample_subscription "canceled")))
      all_served (signed "{}") (one_subscriber (Some "sub_1") true)
    = (Normal {| status := 200; body := json [("received", JBool true)] |}, w') /\
    users w' !! "u1" = Some (subscriber "cus_1" "sub_1" false).
Proof.
  destruct (C4_subscription_deleted_revokes seo full_env
              (yields (customer_subscription_deleted (sample_subscription "canceled")))
              all_served (signed "{}") (sample_subscription "canceled")
              (one_subscriber (Some "sub_1") true) eq_refl eq_refl eq_refl)
    as [w' [Hrun Hrows]].
  exists w'. split; [exact Hrun|].
  apply (Hrows "u1" (subscriber "cus_1" "sub_1" true)); reflexivity.
Defined.

(** C2: a verified [customer.subscription.updated] event, once the store
    carries out the update it triggers, sets [est_booste] on every account
    whose stored [stripe_subscription_id] is the event's subscription id, to
    [true] exactly when the status is active, trialing or past_due, and
    leaves the other accounts alone; delivering status canceled and then
    status active for the same subscription id gives [false], then [true]. *)
Theorem C2_subscription_updated_entitles s env sdk storage w :
  configured s env = true ->
  (forall req sub,
     verified sdk env req (customer_subscription_updated sub) ->
     storage (update {| set_stripe_customer_id := None;
                        set_stripe_subscription_id := Some (Some (sub_id sub));
                        set_est_booste :=
                          Some (includes ["active"; "trialing"; "past_due"] (sub_status sub));
                        set_est_boosté := None |}
                (eq_stripe_subscription_id (sub_id sub))) = Served ->
     exists w' b,
       index_webhook s env sdk storage req w
         = (Normal {| status := 200; body := json [("received", JBool true)] |}, w') /\
       (b = true <-> sub_status sub = "active" \/ sub_status sub = "trialing"
                     \/ sub_status sub = "past_due") /\
       forall id u, users w !! id = Some u ->
         (stripe_subscription_id u = Some (sub_id sub) ->
          users w' !! id = Some {| stripe_customer_id := stripe_customer_id u;
                                   stripe_subscription_id := stripe_subscription_id u;
                                   est_booste := b;
                                   est_boosté := est_boosté u |}) /\
         (stripe_subscription_id u <> Some (sub_id sub) -> users w' !! id = Some u)) /\
  (forall req1 req2 sid,
     verified sdk env req1
       (customer_subscription_updated {| sub_id := sid; sub_status := "canceled" |}) ->
     verified sdk env req2
       (customer_subscription_updated {| sub_id := sid; sub_status := "active" |}) ->
     storage (update {| set_stripe_customer_id := None;
                        set_stripe_subscription_id := Some (Some sid);
                        set_est_booste := Some false;
                        set_est_boosté := None |}
                (eq_stripe_subscription_id sid)) = Served ->
     storage (update {| set_stripe_customer_id := None;
                        set_stripe_subscription_id := Some (Some sid);
                        set_est_booste := Some true;
                        set_est_boosté := None |}
                (eq_stripe_subscription_id sid)) = Served ->
     exists w1 w2,
       index_webhook s env sdk storage req1 w
         = (Normal {| status := 200; body := json [("received", JBool true)] |}, w1) /\
       index_webhook s env sdk storage req2 w1
         = (Normal {| status := 200; body := json [("received", JBool true)] |}, w2) /\
       forall id u, users w !! id = Some u -> stripe_subscription_id u = Some sid ->
         est_booste <$> users w1 !! id = Some false /\
         est_booste <$> users w2 !! id = Some true).
Proof.
  intros Hconf. split.
  - intros req sub' Hver Hserved.
    rewrite (index_webhook_verified _ _ _ _ _ _ _ Hconf Hver).
    cbn [switch_event_type].
    rewrite acknowledge_update, Hserved.
    eexists; exists (includes ["active"; "trialing"; "past_due"] (sub_status sub')).
    split; [reflexivity|]. split; [apply includes_entitling|].
    intros id u Hu. simpl. rewrite lookup_update_rows, Hu. simpl.
    split; intros Hsub.
    + rewrite Hsub, String.eqb_refl. unfold apply_patch; simpl. reflexivity.
    + destruct (stripe_subscription_id u) as [x|]; [|reflexivity].
      destruct (String.eqb_spec x (sub_id sub')); [congruence|reflexivity].
  - intros req1 req2 sid Hver1 Hver2 Hserved1 Hserved2.
    rewrite (index_webhook_verified _ _ _ _ _ _ _ Hconf Hver1). simpl.
    rewrite acknowledge_update, Hserved1.
    do 2 eexists. split; [reflexivity|].
    rewrite (index_webhook_verified _ _ _ _ _ _ _ Hconf Hver2). simpl.
    rewrite acknowledge_update, Hserved2.
    split; [reflexivity|].
    intros id u Hu Hsub. simpl.
    rewrite !lookup_update_rows, Hu. simpl.
    rewrite Hsub, String.eqb_refl. simpl. rewrite String.eqb_refl.
    split; reflexivity.
Qed.

Lemma C2_subscription_updated_entitles_witness :
  exists w1 w2,
    index_webhook sub full_env (sample_sdk status_update) all_served
      (signed "canceled") (one_subscriber (Some "sub_1") true)
    = (Normal {| status := 200; body := json [("received", JBool true)] |}, w1) /\
    index_webhook sub full_env (sample_sdk status_update) all_served
      (signed "active") w1
    = (Normal {| status := 200; body := json [("received", JBool true)] |}, w2) /\
    est_booste <$> users w1 !! "u1" = Some false /\
    est_booste <$> users w2 !! "u1" = Some true.
Proof.
  destruct (C2_subscription_updated_entitles sub full_env (sample_sdk status_update)
              all_served (one_subscriber (Some "sub_1") true) eq_refl)
    as [_ Hscenario].
  destruct (Hscenario (signed "canceled") (signed "active") "sub_1"
              eq_refl eq_refl eq_refl eq_refl)
    as [w1 [w2 [Hrun1 [Hrun2 Hrows]]]].
  exists w1, w2. split; [exact Hrun1|]. split; [exact Hrun2|].
  apply (Hrows "u1" (subscriber "cus_1" "sub_1" true)); reflexivity.
Defined.

(** C10: a [customer.subscription.updated] event changes no account's
    [stripe_subscription_id], whatever the store answers: the update writes
    the value it filters on; when no account stores the event's subscription
    id, the update matches no row and the table is left as it was. *)
Theorem C10_subscription_updated_keeps_links s env sdk storage req sub w :
  configured s env = true ->
  verified sdk env req (customer_subscription_updated sub) ->
  exists r w',
    index_webhook s env sdk storage req w = (Normal r, w') /\
    (forall id,
       stripe_subscription_id <$> users w' !! id = stripe_subscription_id <$> users w !! id) /\
    ((forall id u, users w !! id = Some u -> stripe_subscription_id u <> Some (sub_id sub)) ->
     matching_rows (eq_stripe_subscription_id (sub_id sub)) (users w) = ∅ /\
     users w' = users w).
Proof.
  intros Hconf Hver.
  rewrite (index_webhook_verified _ _ _ _ _ _ _ Hconf Hver).
  cbn [switch_event_type].
  rewrite acknowledge_update.
  assert (Hno : (forall id u, users w !! id = Some u ->
                   stripe_subscription_id u <> Some (sub_id sub)) ->
                forall id u, users w !! id = Some u ->
                  matches (eq_stripe_subscription_id (sub_id sub)) id u = false).
  { intros Hunknown id u Hu. apply not_true_is_false.
    rewrite matches_subscription. exact (Hunknown id u Hu). }
  destruct (storage _); do 2 eexists; (split; [reflexivity|]); simpl;
    (split; [|intros Hunknown; split; [apply matching_rows_empty; auto|]]);
    try reflexivity.
  - intros id. rewrite lookup_update_rows.
    destruct (users w !! id) as [u|]; [|reflexivity]. simpl.
    destruct (stripe_subscription_id u) as [x|] eqn:Hx; [|simpl; rewrite Hx; reflexivity].
    destruct (String.eqb_spec x (sub_id sub)) as [->|Hne]; simpl; rewrite ?Hx; reflexivity.
  - apply update_rows_no_match; auto.
Qed.

Lemma C10_subscription_updated_keeps_links_witness :
  exists r w',
    index_webhook seo full_env
      (yields (customer_subscription_updated
                     {| sub_id := "sub_2"; sub_status := "active" |}))
      all_served (signed "{}") (one_subscriber (Some "sub_1") false)
    = (Normal r, w') /\
    users w' = users (one_subscriber (Some "sub_1") false).
Proof.
  destruct (C10_subscription_updated_keeps_links seo full_env
              (yields (customer_subscription_updated
                             {| sub_id := "sub_2"; sub_status := "active" |}))
              all_served (signed "{}") {| sub_id := "sub_2"; sub_status := "active" |}
              (one_subscriber (Some "sub_1") false) eq_refl eq_refl)
    as [r [w' [Hrun [_ Hunknown]]]].
  exists r, w'. split; [exact Hrun|].
  apply Hunknown. intros id u Hu.
  destruct (decide (id = "u1")) as [->|Hne].
  - vm_compute in Hu. injection Hu as <-. discriminate.
  - unfold one_subscriber, world_of in Hu; simpl in Hu.
    rewrite lookup_singleton_ne in Hu by congruence. discriminate.
Defined.

(** What one awaited update and the acknowledgement come to, whatever the
    store answers. *)
Lemma acknowledge_update_outcome storage p f w :
  exists r w',
    try_catch (let* _ := users_update storage p f in ret received)
      (fun _ => ret server_error) w = (Normal r, w') /\
    (r = received \/
     r = server_error /\
     exists q m, trace w' = (trace w ++ [storage_call q])%list /\ storage q = Thrown m) /\
    ((forall q m, storage q <> Thrown m) -> r = received) /\
    paiements w' = paiements w /\
    ((forall id u, users w !! id = Some u -> matches f id u = false) -> users w' = users w).
Proof.
  rewrite acknowledge_update.
  destruct (storage (update p f)) as [|m|m] eqn:Hq; do 2 eexists;
    (split; [reflexivity|]); simpl.
  - split; [left; reflexivity|]. split; [reflexivity|]. split; [reflexivity|].
    apply update_rows_no_match.
  - split; [left; reflexivity|]. repeat split; reflexivity.
  - split; [right; split; [reflexivity|]; exists (update p f), m; split; [reflexivity|exact Hq]|].
    split; [intros Hnever; destruct (Hnever _ _ Hq)|].
    split; reflexivity.
Qed.

(** What a verified delivery to the webhook of index.js is answered with,
    and what an [invoice.payment_succeeded] event for a subscription stored
    on no account leaves behind. *)
Lemma index_webhook_answers s env sdk storage req event w :
  configured s env = true ->
  verified sdk env req event ->
  exists r w',
    index_webhook s env sdk storage req w = (Normal r, w') /\
    (r = received \/
     r = server_error /\
     exists q m, trace w' = (trace w ++ [storage_call q])%list /\ storage q = Thrown m) /\
    ((forall q m, storage q <> Thrown m) -> r = received) /\
    forall inv, event = invoice_payment_succeeded inv ->
      (forall id u sid, users w !! id = Some u -> invoice_subscription inv = Some sid ->
         stripe_subscription_id u <> Some sid) ->
      users w' = users w /\ paiements w' = paiements w /\
      forall sid, invoice_subscription inv = Some sid ->
        matching_rows (eq_stripe_subscription_id sid) (users w) = ∅.
Proof.
  intros Hconf Hver.
  rewrite (index_webhook_verified _ _ _ _ _ _ _ Hconf Hver).
  assert (Hnothing : exists r w',
             (Normal received, w) = (Normal r, w') /\
             (r = received \/
              r = server_error /\
              exists q m, trace w' = (trace w ++ [storage_call q])%list
                          /\ storage q = Thrown m) /\
             ((forall q m, storage q <> Thrown m) -> r = received) /\
             paiements w' = paiements w /\ users w' = users w).
  { exists received, w. repeat split; auto. }
  destruct event as [session|inv|sub'|sub'|type']; cbn [switch_event_type].
  - destruct (if_truthy (client_reference_id session)) as [uid|];
      [destruct (if_truthy (customer session)) as [cid|]|];
      rewrite ?acknowledge_nothing;
      [destruct (acknowledge_update_outcome storage
                   {| set_stripe_customer_id := Some (Some cid);
                      set_stripe_subscription_id := Some (subscription session);
                      set_est_booste := Some true;
                      set_est_boosté := None |} (eq_id uid) w)
         as (r & w' & Hrun & Hr & Hnever & _)
      |destruct Hnothing as (r & w' & Hrun & Hr & Hnever & _)
      |destruct Hnothing as (r & w' & Hrun & Hr & Hnever & _)];
      exists r, w'; repeat split; auto; discriminate.
  - destruct (if_truthy (invoice_subscription inv)) as [sid|] eqn:Hsid.
    + apply if_truthy_Some in Hsid as [Hsid _].
      destruct (acknowledge_update_outcome storage
                  {| set_stripe_customer_id := None;
                     set_stripe_subscription_id := None;
                     set_est_booste := Some true;
                     set_est_boosté := None |} (eq_stripe_subscription_id sid) w)
        as (r & w' & Hrun & Hr & Hnever & Hpay & Hsame).
      exists r, w'. do 3 (split; [assumption|]).
      intros inv' [= <-] Hunknown.
      assert (Hno : forall sid', invoice_subscription inv = Some sid' ->
                forall id u, users w !! id = Some u ->
                  matches (eq_stripe_subscription_id sid') id u = false).
      { intros sid' Hsid' id u Hu. apply not_true_is_false.
        rewrite matches_subscription. exact (Hunknown id u sid' Hu Hsid'). }
      split; [apply Hsame; auto|]. split; [assumption|].
      intros sid' Hsid'. apply matching_rows_empty; auto.
    + rewrite acknowledge_nothing.
      destruct Hnothing as (r & w' & Hrun & Hr & Hnever & Hpay & Hsame).
      exists r, w'. do 3 (split; [assumption|]).
      intros inv' [= <-] Hunknown.
      split; [assumption|]. split; [assumption|].
      intros sid' Hsid'. apply matching_rows_empty.
      intros id u Hu. apply not_true_is_false.
      rewrite matches_subscription. exact (Hunknown id u sid' Hu Hsid').
  - destruct (acknowledge_update_outcome storage
                {| set_stripe_customer_id := None;
                   set_stripe_subscription_id := Some (Some (sub_id sub'));
                   set_est_booste :=
                     Some (includes ["active"; "trialing"; "past_due"] (sub_status sub'));
                   set_est_boosté := None |}
                (eq_stripe_subscription_id (sub_id sub')) w)
      as (r & w' & Hrun & Hr & Hnever & _).
    exists r, w'; repeat split; auto; discriminate.
  - destruct (acknowledge_update_outcome storage
                {| set_stripe_customer_id := None;
                   set_stripe_subscription_id := None;
                   set_est_booste := Some false;
                   set_est_boosté := None |}
                (eq_stripe_subscription_id (sub_id sub')) w)
      as (r & w' & Hrun & Hr & Hnever & _).
    exists r, w'; repeat split; auto; discriminate.
  - rewrite acknowledge_nothing.
    destruct Hnothing as (r & w' & Hrun & Hr & Hnever & _).
    exists r, w'; repeat split; auto; discriminate.
Qed.

(** C6: after verification the webhook of index.js answers status 200 with
    the body [{received: true}] unless an awaited store call rejects, in
    which case it answers status 500 with the body [{error: 'server error'}]
    and that call is the last thing it did; an answer outside 2xx has no
    other cause. For an [invoice.payment_succeeded] event whose subscription
    id is stored on no account, the update matches no row and both tables
    are left as they were. *)
Theorem C6_unknown_subscription_acknowledged s env sdk storage req event w :
  configured s env = true ->
  verified sdk env req event ->
  exists r w',
    index_webhook s env sdk storage req w = (Normal r, w') /\
    (status r = 200 /\ body r = json [("received", JBool true)] /\ is_2xx r = true \/
     status r = 500 /\ body r = json [("error", JStr "server error")] /\
     is_2xx r = false /\
     exists q m, trace w' = (trace w ++ [storage_call q])%list /\ storage q = Thrown m) /\
    ((forall q m, storage q <> Thrown m) ->
     r = {| status := 200; body := json [("received", JBool true)] |}) /\
    (is_2xx r = false ->
     r = {| status := 500; body := json [("error", JStr "server error")] |} /\
     exists q m, trace w' = (trace w ++ [storage_call q])%list /\ storage q = Thrown m) /\
    forall inv, event = invoice_payment_succeeded inv ->
      (forall id u sid, users w !! id = Some u -> invoice_subscription inv = Some sid ->
         stripe_subscription_id u <> Some sid) ->
      users w' = users w /\ paiements w' = paiements w /\
      forall sid, invoice_subscription inv = Some sid ->
        matching_rows (eq_stripe_subscription_id sid) (users w) = ∅.
Proof.
  intros Hconf Hver.
  destruct (index_webhook_answers s env sdk storage req event w Hconf Hver)
    as (r & w' & Hrun & Hr & Hnever & Hinvoice).
  exists r, w'. split; [exact Hrun|].
  split; [|split; [|split]].
  - destruct Hr as [-> | [-> Hthrown]].
    + left. repeat split; reflexivity.
    + right. repeat split; try reflexivity. exact Hthrown.
  - intros Hserved. rewrite (Hnever Hserved). reflexivity.
  - intros Hfailed. destruct Hr as [-> | [-> Hthrown]].
    + discriminate Hfailed.
    + split; [reflexivity|exact Hthrown].
  - exact Hinvoice.
Qed.

Lemma C6_unknown_subscription_acknowledged_witness :
  exists w',
    index_webhook seo full_env
      (yields (invoice_payment_succeeded {| invoice_subscription := Some "sub_9" |}))
      all_served (signed "{}") (one_subscriber (Some "sub_1") false)
    = (Normal {| status := 200; body := json [("received", JBool true)] |}, w') /\
    users w' = users (one_subscriber (Some "sub_1") false).
Proof.
  destruct (C6_unknown_subscription_acknowledged seo full_env
              (yields (invoice_payment_succeeded {| invoice_subscription := Some "sub_9" |}))
              all_served (signed "{}")
              (invoice_payment_succeeded {| invoice_subscription := Some "sub_9" |})
              (one_subscriber (Some "sub_1") false) eq_refl eq_refl)
    as (r & w' & Hrun & _ & Hnever & _ & Hinvoice).
  exists w'. rewrite <- (Hnever ltac:(discriminate)). split; [exact Hrun|].
  apply (Hinvoice _ eq_refl).
  intros id u sid Hu [= <-].
  destruct (decide (id = "u1")) as [->|Hne].
  - vm_compute in Hu. injection Hu as <-. discriminate.
  - unfold one_subscriber, world_of in Hu; simpl in Hu.
    rewrite lookup_singleton_ne in Hu by congruence. discriminate.
Defined.

(** ** Store failures after verification *)

(** An error the store resolves with is dropped: the delivery is
    acknowledged although no row changed. *)
Lemma refused_update_acknowledged s env sdk storage req sub w message :
  configured s env = true ->
  verified sdk env req (customer_subscription_deleted sub) ->
  storage (update {| set_stripe_customer_id := None;
                     set_stripe_subscription_id := None;
                     set_est_booste := Some false;
                     set_est_boosté := None |}
             (eq_stripe_subscription_id (sub_id sub))) = Refused message ->
  exists w',
    index_webhook s env sdk storage req w = (Normal received, w') /\
    users w' = users w /\ paiements w' = paiements w.
Proof.
  intros Hconf Hver Hrefused.
  rewrite (index_webhook_verified _ _ _ _ _ _ _ Hconf Hver). simpl.
  rewrite acknowledge_update, Hrefused.
  eexists; repeat split; reflexivity.
Qed.

(** A store call that rejects is answered 500 by index.js and by the payment
    server with [/price], and 400 with the error message by the other
    payment server. *)
Example rejected_store_call_answers :
  (index_webhook sub full_env
     (yields (customer_subscription_deleted (sample_subscription "canceled")))
     (rejecting "fetch failed") (signed "{}") (one_subscriber (Some "sub_1") true)).1
  = Normal server_error /\
  (Pay.webhook full_env
     (yields (checkout_session_completed (sample_session (Some "u1") None None)))
     (rejecting "fetch failed") (signed "{}") (world_of {[ "u1" := blank_user ]})).1
  = Normal {| status := 500; body := no_body |} /\
  (PayBasic.webhook full_env
     (yields (checkout_session_completed (sample_session (Some "u1") None None)))
     (rejecting "fetch failed") (signed "{}") (world_of {[ "u1" := blank_user ]})).1
  = Normal {| status := 400; body := text "Webhook Error: fetch failed" |}.
Proof. repeat split; reflexivity. Qed.

(** ** Deliveries that fail verification *)

Lemma index_webhook_rejected s env sdk storage req message w :
  rejected sdk env req message ->
  index_webhook s env sdk storage req w
  = (Normal (if configured s env then signature_rejection message
             else {| status := 501; body := text "Stripe not configured" |}), w).
Proof.
  unfold rejected. intros Hrej. destruct s; simpl.
  - unfold Seo.webhook, Seo.stripe.
    destruct (truthy (STRIPE_SECRET_KEY env)); [rewrite Hrej|]; reflexivity.
  - unfold Sub.webhook. rewrite Hrej. reflexivity.
Qed.

Lemma pay_webhook_rejected env sdk storage req message w :
  rejected sdk env req message ->
  Pay.webhook env sdk storage req w = (Normal (signature_rejection message), w).
Proof.
  unfold rejected, Pay.webhook. intros Hrej. simpl. rewrite Hrej. reflexivity.
Qed.

Lemma pay_basic_webhook_rejected env sdk storage req message w :
  rejected sdk env req message ->
  PayBasic.webhook env sdk storage req w = (Normal (signature_rejection message), w).
Proof.
  unfold rejected, PayBasic.webhook. intros Hrej.
  unfold try_catch, bind. simpl. rewrite Hrej. reflexivity.
Qed.

(** The two payment servers leave the same world behind; they differ in the
    answer to a delivery during which a store call rejects. *)
Lemma pay_basic_webhook_world env sdk storage req w :
  (PayBasic.webhook env sdk storage req w).2 = (Pay.webhook env sdk storage req w).2.
Proof.
  unfold PayBasic.webhook, Pay.webhook, try_catch, bind, throw, ret. simpl.
  destruct (constructEvent sdk _ _ _) as [event|message]; [|reflexivity].
  destruct event as [session| | | |]; try reflexivity.
  destruct (if_truthy (js_or _ _)) as [uid|]; [|reflexivity].
  unfold paiements_insert, users_update.
  destruct (storage (insert_paiement _)); simpl; try reflexivity;
    destruct (storage (update _ _)); reflexivity.
Qed.

(** C3: when [constructEvent] throws on a delivery (wrong signature,
    malformed header or body), each webhook handler answers with a status
    outside 2xx (400, or 501 when the first server of index.js has no Stripe
    client) and leaves the world as it was: no table changes and no external
    call is issued. No event exists on that path: the handlers only obtain
    one from a [constructEvent] that returned. *)
Theorem C3_unverified_delivery_rejected env sdk storage req message w :
  rejected sdk env req message ->
  (forall s, exists r,
      index_webhook s env sdk storage req w = (Normal r, w) /\
      is_2xx r = false /\ (status r = 400 \/ status r = 501)) /\
  (exists r,
      Pay.webhook env sdk storage req w = (Normal r, w) /\
      is_2xx r = false /\ status r = 400) /\
  (exists r,
      PayBasic.webhook env sdk storage req w = (Normal r, w) /\
      is_2xx r = false /\ status r = 400).
Proof.
  intros Hrej. split; [|split].
  - intros s. rewrite (index_webhook_rejected s _ _ storage _ _ w Hrej).
    eexists; split; [reflexivity|].
    destruct (configured s env); simpl; auto.
  - rewrite (pay_webhook_rejected _ _ storage _ _ w Hrej).
    eexists; split; [reflexivity|]. simpl; auto.
  - rewrite (pay_basic_webhook_rejected _ _ storage _ _ w Hrej).
    eexists; split; [reflexivity|]. simpl; auto.
Qed.

Lemma C3_unverified_delivery_rejected_witness :
  index_webhook sub full_env (sample_sdk status_update) all_served
    {| raw_body := "active"; stripe_signature := Some "v1=forged" |}
    (one_subscriber (Some "sub_1") false)
  = (Normal (signature_rejection
               "No signatures found matching the expected signature for payload."),
     one_subscriber (Some "sub_1") false).
Proof.
  destruct (C3_unverified_delivery_rejected full_env (sample_sdk status_update) all_served
              {| raw_body := "active"; stripe_signature := Some "v1=forged" |}
              "No signatures found matching the expected signature for payload."
              (one_subscriber (Some "sub_1") false) eq_refl)
    as [Hindex _].
  destruct (Hindex sub) as (r & Hrun & _).
  pose proof Hrun as Hr. injection Hr as Hr. subst r. exact Hrun.
Defined.

(** With an SDK that words a missing header and a wrong signature
    differently, the two rejections differ: the response body carries
    [err.message]. *)
Lemma C7_rejections_differ :
  rejected (sample_sdk status_update) full_env
    {| raw_body := "active"; stripe_signature := None |}
    "No stripe-signature header value was provided." /\
  rejected (sample_sdk status_update) full_env
    {| raw_body := "active"; stripe_signature := Some "v1=forged" |}
    "No signatures found matching the expected signature for payload." /\
  index_webhook sub full_env (sample_sdk status_update) all_served
    {| raw_body := "active"; stripe_signature := None |} (world_of ∅)
  = (Normal {| status := 400;
               body := text "Webhook Error: No stripe-signature header value was provided." |},
     world_of ∅) /\
  index_webhook sub full_env (sample_sdk status_update) all_served
    {| raw_body := "active"; stripe_signature := Some "v1=forged" |} (world_of ∅)
  = (Normal {| status := 400;
               body := text "Webhook Error: No signatures found matching the expected signature for payload." |},
     world_of ∅) /\
  index_webhook sub full_env (sample_sdk status_update) all_served
    {| raw_body := "active"; stripe_signature := None |} (world_of ∅)
  <> index_webhook sub full_env (sample_sdk status_update) all_served
       {| raw_body := "active"; stripe_signature := Some "v1=forged" |} (world_of ∅).
Proof.
  repeat split; try reflexivity. discriminate.
Qed.

(** C7 (amended): a delivery on which [constructEvent] throws is answered
    with status 400 and the text [Webhook Error: ] followed by the message of
    the thrown error, in every server (the first server of index.js when its
    Stripe client exists); two rejected deliveries get the same
    response exactly when the SDK reports them with the same message. *)
Theorem C7_rejection_echoes_message env sdk storage req1 req2 m1 m2 w :
  rejected sdk env req1 m1 ->
  rejected sdk env req2 m2 ->
  (forall s, configured s env = true ->
     index_webhook s env sdk storage req1 w
     = (Normal {| status := 400; body := text ("Webhook Error: " +:+ m1) |}, w) /\
     index_webhook s env sdk storage req2 w
     = (Normal {| status := 400; body := text ("Webhook Error: " +:+ m2) |}, w) /\
     (index_webhook s env sdk storage req1 w = index_webhook s env sdk storage req2 w
      <-> m1 = m2)) /\
  Pay.webhook env sdk storage req1 w
  = (Normal {| status := 400; body := text ("Webhook Error: " +:+ m1) |}, w) /\
  Pay.webhook env sdk storage req2 w
  = (Normal {| status := 400; body := text ("Webhook Error: " +:+ m2) |}, w) /\
  (Pay.webhook env sdk storage req1 w = Pay.webhook env sdk storage req2 w <-> m1 = m2) /\
  PayBasic.webhook env sdk storage req1 w
  = (Normal {| status := 400; body := text ("Webhook Error: " +:+ m1) |}, w) /\
  PayBasic.webhook env sdk storage req2 w
  = (Normal {| status := 400; body := text ("Webhook Error: " +:+ m2) |}, w) /\
  (PayBasic.webhook env sdk storage req1 w = PayBasic.webhook env sdk storage req2 w
   <-> m1 = m2).
Proof.
  intros Hrej1 Hrej2.
  assert (Hinj : (Normal (signature_rejection m1), w) = (Normal (signature_rejection m2), w)
                 <-> m1 = m2).
  { split; [|intros ->; reflexivity].
    unfold signature_rejection. simpl. intros [= Heq]. exact Heq. }
  split.
  - intros s Hconf.
    rewrite (index_webhook_rejected s _ _ storage _ _ w Hrej1),
            (index_webhook_rejected s _ _ storage _ _ w Hrej2), Hconf.
    split; [reflexivity|]. split; [reflexivity|]. exact Hinj.
  - rewrite (pay_webhook_rejected _ _ storage _ _ w Hrej1),
            (pay_webhook_rejected _ _ storage _ _ w Hrej2),
            (pay_basic_webhook_rejected _ _ storage _ _ w Hrej1),
            (pay_basic_webhook_rejected _ _ storage _ _ w Hrej2).
    repeat (split; [first [reflexivity | exact Hinj]|]). exact Hinj.
Qed.

Lemma C7_rejection_echoes_message_witness :
  Pay.webhook full_env (sample_sdk status_update) all_served
    {| raw_body := "active"; stripe_signature := None |} (world_of ∅)
  = (Normal {| status := 400;
               body := text "Webhook Error: No stripe-signature header value was provided." |},
     world_of ∅).
Proof.
  exact (proj1 (proj2 (C7_rejection_echoes_message full_env (sample_sdk status_update)
                         all_served
                         {| raw_body := "active"; stripe_signature := None |}
                         {| raw_body := "active"; stripe_signature := Some "v1=forged" |}
                         "No stripe-signature header value was provided."
                         "No signatures found matching the expected signature for payload."
                         (world_of ∅) eq_refl eq_refl))).
Defined.

(** ** Startup *)

Example startup_without_environment :
  index_startup seo empty_env sample_constructors = exited 1 /\
  index_startup sub empty_env sample_constructors = exited 1 /\
  index_startup sub store_only_env sample_constructors = exited 1 /\
  index_startup seo full_env sample_constructors = listening true false /\
  index_startup sub full_env sample_constructors = listening true false /\
  index_startup seo bad_url_env sample_constructors
  = crashed "Invalid supabaseUrl: Must be a valid HTTP or HTTPS URL." /\
  index_startup sub bad_url_env sample_constructors
  = crashed "Invalid supabaseUrl: Must be a valid HTTP or HTTPS URL.".
Proof. repeat split; reflexivity. Qed.

(** With only the data store configured, the first server of index.js
    warns and listens, without a Stripe client. *)
Lemma C9_seo_starts_without_stripe :
  truthy (STRIPE_SECRET_KEY store_only_env) = false /\
  truthy (STRIPE_PRICE_ID store_only_env) = false /\
  truthy (STRIPE_WEBHOOK_SECRET store_only_env) = false /\
  createClient sample_constructors "https://db.example" "service_1" = constructed /\
  index_startup seo store_only_env sample_constructors = listening false true.
Proof. repeat split; reflexivity. Qed.

(** C9 (amended): the second server of index.js stops at its environment
    check, with [process.exit(1)], whenever one of the five values (secret
    key, price id, webhook secret, store URL, service role key) is missing or
    empty, and so never listens with one of them missing; with the five set
    it builds the Stripe client, then the store client, and listens, unless
    one of the two constructors throws. The first server stops at its check
    whenever the store URL or the service role key is missing or empty. With
    these two set it builds the store client; if that does not throw it goes
    on whatever the three Stripe values are: without a secret key it warns
    and listens with no Stripe client; with one it builds the Stripe client
    and, if that does not throw, listens, having warned when the price id or
    the webhook secret is missing or empty. *)
Theorem C9_startup_checks env lib :
  (truthy (STRIPE_SECRET_KEY env) = false \/ truthy (STRIPE_PRICE_ID env) = false \/
   truthy (STRIPE_WEBHOOK_SECRET env) = false \/ truthy (SUPABASE_URL env) = false \/
   truthy (SUPABASE_SERVICE_ROLE_KEY env) = false ->
   index_startup sub env lib = exited 1) /\
  (forall built warned, index_startup sub env lib = listening built warned ->
     truthy (STRIPE_SECRET_KEY env) = true /\ truthy (STRIPE_PRICE_ID env) = true /\
     truthy (STRIPE_WEBHOOK_SECRET env) = true /\ truthy (SUPABASE_URL env) = true /\
     truthy (SUPABASE_SERVICE_ROLE_KEY env) = true /\ built = true /\ warned = false) /\
  (forall secret url key,
     if_truthy (STRIPE_SECRET_KEY env) = Some secret ->
     truthy (STRIPE_PRICE_ID env) = true -> truthy (STRIPE_WEBHOOK_SECRET env) = true ->
     if_truthy (SUPABASE_URL env) = Some url ->
     if_truthy (SUPABASE_SERVICE_ROLE_KEY env) = Some key ->
     (forall m, new_Stripe lib secret = construction_throws m ->
        index_startup sub env lib = crashed m) /\
     (new_Stripe lib secret = constructed ->
        (forall m, createClient lib url key = construction_throws m ->
           index_startup sub env lib = crashed m) /\
        (createClient lib url key = constructed ->
           index_startup sub env lib = listening true false))) /\
  (truthy (SUPABASE_URL env) = false \/ truthy (SUPABASE_SERVICE_ROLE_KEY env) = false ->
   index_startup seo env lib = exited 1) /\
  (forall url key,
     if_truthy (SUPABASE_URL env) = Some url ->
     if_truthy (SUPABASE_SERVICE_ROLE_KEY env) = Some key ->
     (forall m, createClient lib url key = construction_throws m ->
        index_startup seo env lib = crashed m) /\
     (createClient lib url key = constructed ->
        (truthy (STRIPE_SECRET_KEY env) = false ->
           index_startup seo env lib = listening false true) /\
        (forall secret, if_truthy (STRIPE_SECRET_KEY env) = Some secret ->
           (forall m, new_Stripe lib secret = construction_throws m ->
              index_startup seo env lib = crashed m) /\
           (new_Stripe lib secret = constructed ->
              index_startup seo env lib
              = listening true
                  (negb (truthy (STRIPE_PRICE_ID env)
                         && truthy (STRIPE_WEBHOOK_SECRET env))))))).
Proof.
  unfold index_startup, Sub.startup, Seo.startup, truthy.
  repeat split.
  - intros H.
    destruct (if_truthy (STRIPE_SECRET_KEY env)), (if_truthy (STRIPE_PRICE_ID env)),
      (if_truthy (STRIPE_WEBHOOK_SECRET env)), (if_truthy (SUPABASE_URL env)),
      (if_truthy (SUPABASE_SERVICE_ROLE_KEY env)); try reflexivity.
    intuition discriminate.
  - revert H.
    destruct (if_truthy (STRIPE_SECRET_KEY env)), (if_truthy (STRIPE_PRICE_ID env)),
      (if_truthy (STRIPE_WEBHOOK_SECRET env)), (if_truthy (SUPABASE_URL env)),
      (if_truthy (SUPABASE_SERVICE_ROLE_KEY env)); try discriminate; reflexivity.
  - revert H.
    destruct (if_truthy (STRIPE_SECRET_KEY env)), (if_truthy (STRIPE_PRICE_ID env));
      try discriminate; reflexivity.
  - revert H.
    destruct (if_truthy (STRIPE_SECRET_KEY env)), (if_truthy (STRIPE_PRICE_ID env)),
      (if_truthy (STRIPE_WEBHOOK_SECRET env)); try discriminate; reflexivity.
  - revert H.
    destruct (if_truthy (STRIPE_SECRET_KEY env)), (if_truthy (STRIPE_PRICE_ID env)),
      (if_truthy (STRIPE_WEBHOOK_SECRET env)), (if_truthy (SUPABASE_URL env));
      try discriminate; reflexivity.
  - revert H.
    destruct (if_truthy (STRIPE_SECRET_KEY env)), (if_truthy (STRIPE_PRICE_ID env)),
      (if_truthy (STRIPE_WEBHOOK_SECRET env)), (if_truthy (SUPABASE_URL env)),
      (if_truthy (SUPABASE_SERVICE_ROLE_KEY env)); try discriminate; reflexivity.
  - revert H.
    destruct (if_truthy (STRIPE_SECRET_KEY env)), (if_truthy (STRIPE_PRICE_ID env)),
      (if_truthy (STRIPE_WEBHOOK_SECRET env)), (if_truthy (SUPABASE_URL env)),
      (if_truthy (SUPABASE_SERVICE_ROLE_KEY env)); try discriminate.
    destruct (new_Stripe lib _); [|discriminate].
    destruct (createClient lib _ _); [|discriminate]. intros [= <- _]. reflexivity.
  - revert H.
    destruct (if_truthy (STRIPE_SECRET_KEY env)), (if_truthy (STRIPE_PRICE_ID env)),
      (if_truthy (STRIPE_WEBHOOK_SECRET env)), (if_truthy (SUPABASE_URL env)),
      (if_truthy (SUPABASE_SERVICE_ROLE_KEY env)); try discriminate.
    destruct (new_Stripe lib _); [|discriminate].
    destruct (createClient lib _ _); [|discriminate]. intros [= _ <-]. reflexivity.
  - intros m Hm. rewrite H, H2, H3.
    destruct (if_truthy (STRIPE_PRICE_ID env)); [|discriminate].
    destruct (if_truthy (STRIPE_WEBHOOK_SECRET env)); [|discriminate].
    rewrite Hm. reflexivity.
  - intros m Hm. rewrite H, H2, H3.
    destruct (if_truthy (STRIPE_PRICE_ID env)); [|discriminate].
    destruct (if_truthy (STRIPE_WEBHOOK_SECRET env)); [|discriminate].
    rewrite H4, Hm. reflexivity.
  - intros Hc. rewrite H, H2, H3.
    destruct (if_truthy (STRIPE_PRICE_ID env)); [|discriminate].
    destruct (if_truthy (STRIPE_WEBHOOK_SECRET env)); [|discriminate].
    rewrite H4, Hc. reflexivity.
  - intros H.
    destruct (if_truthy (SUPABASE_URL env)), (if_truthy (SUPABASE_SERVICE_ROLE_KEY env));
      try reflexivity.
    intuition discriminate.
  - intros m Hm. rewrite H, H0, Hm. reflexivity.
  - intros Hsk. rewrite H, H0, H1.
    destruct (if_truthy (STRIPE_SECRET_KEY env)); [discriminate|]. reflexivity.
  - intros m Hm. rewrite H, H0, H1, H2, Hm. reflexivity.
  - intros Hc. rewrite H, H0, H1, H2, Hc. simpl.
    destruct (if_truthy (STRIPE_PRICE_ID env)), (if_truthy (STRIPE_WEBHOOK_SECRET env));
      reflexivity.
Qed.

Lemma C9_startup_checks_witness :
  index_startup sub store_only_env sample_constructors = exited 1 /\
  index_startup seo store_only_env sample_constructors = listening false true.
Proof.
  pose proof (C9_startup_checks store_only_env sample_constructors)
    as (Hsub & _ & _ & _ & Hseo).
  split.
  - apply Hsub. left. reflexivity.
  - destruct (Hseo "https://db.example" "service_1" eq_refl eq_refl) as [_ Hbuilt].
    destruct (Hbuilt eq_refl) as [Hnone _]. apply Hnone. reflexivity.
Defined.

(** ** [checkout.session.completed] *)

Lemma apply_patch_idem p u : apply_patch p (apply_patch p u) = apply_patch p u.
Proof.
  unfold apply_patch.
  destruct (set_stripe_customer_id p), (set_stripe_subscription_id p),
    (set_est_booste p), (set_est_boosté p); reflexivity.
Qed.

(** An update filtered on the key, done twice, is the update done once. *)
Lemma update_rows_eq_id_idem p v (t : gmap string User) :
  update_rows p (eq_id v) (update_rows p (eq_id v) t) = update_rows p (eq_id v) t.
Proof.
  apply map_eq; intros id. rewrite !lookup_update_rows.
  destruct (t !! id) as [u|]; [|reflexivity]. simpl.
  destruct (String.eqb id v); [rewrite apply_patch_idem|]; reflexivity.
Qed.

Lemma pay_webhook_checkout env sdk storage req session w :
  verified sdk env req (checkout_session_completed session) ->
  Pay.webhook env sdk storage req w
  = try_catch
      (let* _ :=
         match if_truthy (js_or (client_reference_id session) (metadata_user_id session)) with
         | Some userId =>
             let* _ :=
               paiements_insert storage
                 {| id_utilisateur := userId;
                    montant := default 0 (amount_total session);
                    type := if bool_decide (metadata_boost_type session = Some "coach")
                            then "boost coach" else "boost adherent";
                    stripe_payment_id := session_id session |} in
             users_update storage
               {| set_stripe_customer_id := None;
                  set_stripe_subscription_id := None;
                  set_est_booste := None;
                  set_est_boosté := Some true |}
               (eq_id userId)
         | None => ret tt
         end in
       ret {| status := 200; body := no_body |})
      (fun _ => ret {| status := 500; body := no_body |}) w.
Proof.
  unfold verified, Pay.webhook. intros Hver. simpl. rewrite Hver. reflexivity.
Qed.

(** A session that names the account but no customer is acknowledged
    without any update: the account stays as it was. *)
Lemma C1_checkout_without_customer_ignored :
  truthy (client_reference_id (sample_session (Some "u1") None (Some "sub_1"))) = true /\
  verified (yields (checkout_session_completed
                      (sample_session (Some "u1") None (Some "sub_1"))))
    full_env (signed "{}")
    (checkout_session_completed (sample_session (Some "u1") None (Some "sub_1"))) /\
  index_webhook sub full_env
    (yields (checkout_session_completed (sample_session (Some "u1") None (Some "sub_1"))))
    all_served (signed "{}") (world_of {[ "u1" := blank_user ]})
  = (Normal {| status := 200; body := json [("received", JBool true)] |},
     world_of {[ "u1" := blank_user ]}).
Proof. repeat split; reflexivity. Qed.

(** C1 (amended): for a verified [checkout.session.completed] event, the
    webhook of index.js issues its update exactly when both
    [client_reference_id] and [customer] are present and non-empty; once the
    store carries it out, the account with that id has [stripe_customer_id],
    [stripe_subscription_id] (the session's, possibly null) and
    [est_booste = true], and no other account changes; when either is
    missing, the world is left as it was and the delivery is acknowledged.
    In the payment servers the account id is [client_reference_id] or else
    [metadata.user_id]; when it is present and the store carries out the
    queries, a [paiements] row is inserted and only [est_boosté = true] is
    set on the account; when it is missing nothing happens. The two payment
    servers leave the same world. *)
Theorem C1_checkout_completed_links env sdk storage req session w :
  verified sdk env req (checkout_session_completed session) ->
  (forall s, configured s env = true ->
     (forall uid cid,
        if_truthy (client_reference_id session) = Some uid ->
        if_truthy (customer session) = Some cid ->
        storage (update {| set_stripe_customer_id := Some (Some cid);
                           set_stripe_subscription_id := Some (subscription session);
                           set_est_booste := Some true;
                           set_est_boosté := None |} (eq_id uid)) = Served ->
        exists w',
          index_webhook s env sdk storage req w
            = (Normal {| status := 200; body := json [("received", JBool true)] |}, w') /\
          users w'
          = alter (fun u => {| stripe_customer_id := Some cid;
                               stripe_subscription_id := subscription session;
                               est_booste := true;
                               est_boosté := est_boosté u |}) uid (users w)) /\
     (truthy (client_reference_id session) = false \/ truthy (customer session) = false ->
      index_webhook s env sdk storage req w
        = (Normal {| status := 200; body := json [("received", JBool true)] |}, w))) /\
  (forall uid,
     if_truthy (js_or (client_reference_id session) (metadata_user_id session)) = Some uid ->
     (forall q, storage q = Served) ->
     exists w',
       Pay.webhook env sdk storage req w = (Normal {| status := 200; body := no_body |}, w') /\
       paiements w' = (paiements w ++ [logged_payment uid session])%list /\
       users w'
       = alter (fun u => {| stripe_customer_id := stripe_customer_id u;
                            stripe_subscription_id := stripe_subscription_id u;
                            est_booste := est_booste u;
                            est_boosté := true |}) uid (users w)) /\
  (truthy (js_or (client_reference_id session) (metadata_user_id session)) = false ->
   Pay.webhook env sdk storage req w = (Normal {| status := 200; body := no_body |}, w)) /\
  (PayBasic.webhook env sdk storage req w).2 = (Pay.webhook env sdk storage req w).2.
Proof.
  intros Hver. split; [|split; [|split; [|apply pay_basic_webhook_world]]].
  - intros s Hconf.
    rewrite (index_webhook_verified _ _ _ _ _ _ _ Hconf Hver).
    cbn [switch_event_type]. split.
    + intros uid cid -> -> Hserved.
      rewrite acknowledge_update, Hserved.
      eexists; split; [reflexivity|]. simpl.
      rewrite update_rows_eq_id. reflexivity.
    + unfold truthy.
      destruct (if_truthy (client_reference_id session)),
        (if_truthy (customer session)); intros [?|?]; try discriminate; reflexivity.
  - intros uid Huid Hserved.
    rewrite (pay_webhook_checkout _ _ _ _ _ _ Hver), Huid.
    unfold try_catch, bind, paiements_insert, users_update, ret.
    rewrite !Hserved. eexists.
    split; [reflexivity|]. simpl. split; [reflexivity|].
    rewrite update_rows_eq_id. reflexivity.
  - intros Hnone. rewrite (pay_webhook_checkout _ _ _ _ _ _ Hver).
    unfold truthy in Hnone.
    destruct (if_truthy (js_or _ _)); [discriminate|reflexivity].
Qed.

Lemma C1_checkout_completed_links_witness :
  exists w',
    index_webhook seo full_env
      (yields (checkout_session_completed
                 (sample_session (Some "u1") (Some "cus_1") (Some "sub_1"))))
      all_served (signed "{}") (world_of {[ "u1" := blank_user ]})
    = (Normal {| status := 200; body := json [("received", JBool true)] |}, w') /\
    users w' !! "u1" = Some (subscriber "cus_1" "sub_1" true).
Proof.
  destruct (C1_checkout_completed_links full_env
              (yields (checkout_session_completed
                         (sample_session (Some "u1") (Some "cus_1") (Some "sub_1"))))
              all_served (signed "{}")
              (sample_session (Some "u1") (Some "cus_1") (Some "sub_1"))
              (world_of {[ "u1" := blank_user ]}) eq_refl)
    as [Hindex _].
  destruct (Hindex seo eq_refl) as [Hlinks _].
  destruct (Hlinks "u1" "cus_1" eq_refl eq_refl eq_refl) as [w' [Hrun Husers]].
  exists w'. split; [exact Hrun|].
  rewrite Husers. reflexivity.
Defined.

(** In the payment server, the same event delivered twice to a store that
    carries out every query leaves two rows in [paiements], one delivery
    leaves one. *)
Lemma C5_payment_logged_twice :
  verified (yields (checkout_session_completed (sample_session (Some "u1") None None)))
    full_env (signed "{}")
    (checkout_session_completed (sample_session (Some "u1") None None)) /\
  paiements
    (Pay.webhook full_env
       (yields (checkout_session_completed (sample_session (Some "u1") None None)))
       all_served (signed "{}") (world_of {[ "u1" := blank_user ]})).2
  = [sample_paiement] /\
  paiements
    (Pay.webhook full_env
       (yields (checkout_session_completed (sample_session (Some "u1") None None)))
       all_served (signed "{}")
       (Pay.webhook full_env
          (yields (checkout_session_completed (sample_session (Some "u1") None None)))
          all_served (signed "{}") (world_of {[ "u1" := blank_user ]})).2).2
  = [sample_paiement; sample_paiement].
Proof. repeat split; reflexivity. Qed.

(** C5 (amended): after a [checkout.session.completed] delivery that the
    store carried out, delivering the identical event again leaves the
    [users] table as it was, in every server and whatever the store answers
    the second time. In index.js nothing else is written. In the payment
    servers each delivery with an account id also inserts a [paiements] row:
    the second delivery adds a second, identical row exactly when the store
    carries out the second insert; when it does not (as with the unique
    index on [stripe_payment_id] the source comment asks for), [paiements]
    is as after one delivery. *)
Theorem C5_checkout_redelivery env sdk storage1 storage2 req session w :
  verified sdk env req (checkout_session_completed session) ->
  (forall q, storage1 q = Served) ->
  (forall s, configured s env = true ->
     users (index_webhook s env sdk storage2 req
              (index_webhook s env sdk storage1 req w).2).2
     = users (index_webhook s env sdk storage1 req w).2 /\
     paiements (index_webhook s env sdk storage2 req
                  (index_webhook s env sdk storage1 req w).2).2
     = paiements (index_webhook s env sdk storage1 req w).2) /\
  users (Pay.webhook env sdk storage2 req (Pay.webhook env sdk storage1 req w).2).2
  = users (Pay.webhook env sdk storage1 req w).2 /\
  (forall uid,
     if_truthy (js_or (client_reference_id session) (metadata_user_id session)) = Some uid ->
     paiements (Pay.webhook env sdk storage1 req w).2
     = (paiements w ++ [logged_payment uid session])%list /\
     paiements (Pay.webhook env sdk storage2 req (Pay.webhook env sdk storage1 req w).2).2
     = match storage2 (insert_paiement (logged_payment uid session)) with
       | Served => (paiements w ++ [logged_payment uid session; logged_payment uid session])%list
       | _ => (paiements w ++ [logged_payment uid session])%list
       end) /\
  (truthy (js_or (client_reference_id session) (metadata_user_id session)) = false ->
   (Pay.webhook env sdk storage2 req (Pay.webhook env sdk storage1 req w).2).2 = w) /\
  (forall storage w0,
     (PayBasic.webhook env sdk storage req w0).2 = (Pay.webhook env sdk storage req w0).2).
Proof.
  intros Hver Hserved.
  split; [|split; [|split; [|split; [|intros; apply pay_basic_webhook_world]]]].
  - intros s Hconf.
    rewrite !(index_webhook_verified _ _ _ _ _ _ _ Hconf Hver).
    cbn [switch_event_type].
    destruct (if_truthy (client_reference_id session)) as [uid|];
      [destruct (if_truthy (customer session)) as [cid|]|];
      rewrite ?acknowledge_nothing; try (split; reflexivity).
    rewrite !acknowledge_update, Hserved.
    destruct (storage2 _); simpl; split; try reflexivity.
    apply update_rows_eq_id_idem.
  - rewrite !(pay_webhook_checkout _ _ _ _ _ _ Hver).
    destruct (if_truthy (js_or _ _)) as [uid|]; [|reflexivity].
    unfold try_catch, bind, paiements_insert, users_update, ret.
    rewrite !Hserved.
    destruct (storage2 (insert_paiement _)); simpl; try reflexivity;
      destruct (storage2 (update _ _)); simpl; try reflexivity;
      apply update_rows_eq_id_idem.
  - intros uid Huid. rewrite !(pay_webhook_checkout _ _ _ _ _ _ Hver), Huid.
    unfold try_catch, bind, paiements_insert, users_update, ret.
    rewrite !Hserved. simpl. split; [reflexivity|].
    fold (logged_payment uid session).
    destruct (storage2 (insert_paiement (logged_payment uid session))); simpl;
      try reflexivity;
      destruct (storage2 (update _ _)); simpl; rewrite <- ?app_assoc; reflexivity.
  - intros Hnone. rewrite !(pay_webhook_checkout _ _ _ _ _ _ Hver).
    unfold truthy in Hnone.
    destruct (if_truthy (js_or _ _)); [discriminate|reflexivity].
Qed.

Lemma C5_checkout_redelivery_witness :
  users (index_webhook sub full_env
           (yields (checkout_session_completed
                      (sample_session (Some "u1") (Some "cus_1") (Some "sub_1"))))
           all_served (signed "{}")
           (index_webhook sub full_env
              (yields (checkout_session_completed
                         (sample_session (Some "u1") (Some "cus_1") (Some "sub_1"))))
              all_served (signed "{}") (world_of {[ "u1" := blank_user ]})).2).2
  = users (index_webhook sub full_env
             (yields (checkout_session_completed
                        (sample_session (Some "u1") (Some "cus_1") (Some "sub_1"))))
             all_served (signed "{}") (world_of {[ "u1" := blank_user ]})).2.
Proof.
  destruct (C5_checkout_redelivery full_env
              (yields (checkout_session_completed
                         (sample_session (Some "u1") (Some "cus_1") (Some "sub_1"))))
              all_served all_served (signed "{}")
              (sample_session (Some "u1") (Some "cus_1") (Some "sub_1"))
              (world_of {[ "u1" := blank_user ]}) eq_refl (fun _ => eq_refl))
    as [Hindex _].
  exact (proj1 (Hindex sub eq_refl)).
Defined.

(** ** Creating a checkout session *)

(** The payment server creates the session without creating or storing a
    customer: its only external call is [checkout.sessions.create]. *)
Lemma C8_payment_session_without_customer :
  users (world_of {[ "u1" := blank_user ]}) !! "u1" = Some blank_user /\
  Pay.create_checkout_session full_env (sample_sdk status_update)
    {| userId := Some "u1"; email := None; boostType := None; origin := None |}
    (world_of {[ "u1" := blank_user ]})
  = (Normal {| status := 200;
               body := json [("url", JStr "https://checkout.stripe.com/c/cs_1")] |},
     {| users := {[ "u1" := blank_user ]};
        paiements := [];
        trace :=
          [stripe_checkout_sessions_create
             {| sp_mode := "payment";
                sp_customer := None;
                sp_price := Some "price_1";
                sp_allow_promotion_codes := false;
                sp_success_url :=
                  "https://app.parrainsport.fr/success?session_id={CHECKOUT_SESSION_ID}";
                sp_cancel_url := "https://app.parrainsport.fr/profile";
                sp_client_reference_id := "u1";
                sp_metadata := [("user_id", Some "u1"); ("boost_type", Some "adherent")];
                sp_locale := Some "fr" |}] |}).
Proof. split; reflexivity. Qed.

(** C8 (amended): for a request with a non-empty [userId]. In index.js, when
    the Stripe client exists, the account's row is read without a customer
    id, [customers.create] returns and the store carries out the read and
    the update: the calls are, in this order, the read, [customers.create],
    the update that stores the new customer id on the account's row, and
    [checkout.sessions.create]; the row then holds the customer id (also when
    the session creation throws), and the session request carries that
    customer, [client_reference_id = userId] and the price of the
    environment. In the payment servers no customer is created or stored:
    the only call is [checkout.sessions.create], with [client_reference_id =
    userId] and the price of the environment. *)
Theorem C8_checkout_session_created env sdk storage req uid w :
  if_truthy (userId req) = Some uid ->
  (forall s u cid,
     configured s env = true ->
     users w !! uid = Some u ->
     truthy (stripe_customer_id u) = false ->
     storage (select_stripe_customer_id (eq_id uid)) = Served ->
     customers_create sdk {| cp_email := if_truthy (email req); cp_metadata_userId := uid |}
     = inl cid ->
     storage (update {| set_stripe_customer_id := Some (Some cid);
                        set_stripe_subscription_id := None;
                        set_est_booste := None;
                        set_est_boosté := None |} (eq_id uid)) = Served ->
     exists r w' params,
       index_create_checkout_session s env sdk storage req w = (Normal r, w') /\
       trace w'
       = (trace w ++
          [storage_call (select_stripe_customer_id (eq_id uid));
           stripe_customers_create
             {| cp_email := if_truthy (email req); cp_metadata_userId := uid |};
           storage_call (update {| set_stripe_customer_id := Some (Some cid);
                                   set_stripe_subscription_id := None;
                                   set_est_booste := None;
                                   set_est_boosté := None |} (eq_id uid));
           stripe_checkout_sessions_create params])%list /\
       users w'
       = <[ uid := {| stripe_customer_id := Some cid;
                      stripe_subscription_id := stripe_subscription_id u;
                      est_booste := est_booste u;
                      est_boosté := est_boosté u |} ]> (users w) /\
       sp_customer params = Some cid /\
       sp_client_reference_id params = uid /\
       sp_price params = STRIPE_PRICE_ID env /\
       r = match sessions_create sdk params with
           | inl url => {| status := 200; body := json [("url", JStr url)] |}
           | inr _ => {| status := 500; body := json [("error", JStr "server error")] |}
           end) /\
  (exists r w' params,
     Pay.create_checkout_session env sdk req w = (Normal r, w') /\
     trace w' = (trace w ++ [stripe_checkout_sessions_create params])%list /\
     users w' = users w /\
     sp_customer params = None /\
     sp_client_reference_id params = uid /\
     sp_price params = STRIPE_PRICE_ID env) /\
  (exists r w' params,
     PayBasic.create_checkout_session env sdk req w = (Normal r, w') /\
     trace w' = (trace w ++ [stripe_checkout_sessions_create params])%list /\
     users w' = users w /\
     sp_customer params = None /\
     sp_client_reference_id params = uid /\
     sp_price params = STRIPE_PRICE_ID env).
Proof.
  intros Huid. split; [|split].
  - intros s u cid Hconf Hu Hnone Hselect Hcreate Hupdate.
    assert (Hfalsy : if_truthy (Some u ≫= stripe_customer_id) = None).
    { simpl. unfold truthy in Hnone.
      destruct (if_truthy (stripe_customer_id u)); [discriminate|reflexivity]. }
    assert (Hrow : update_rows {| set_stripe_customer_id := Some (Some cid);
                                  set_stripe_subscription_id := None;
                                  set_est_booste := None;
                                  set_est_boosté := None |} (eq_id uid) (users w)
                   = <[ uid := {| stripe_customer_id := Some cid;
                                  stripe_subscription_id := stripe_subscription_id u;
                                  est_booste := est_booste u;
                                  est_boosté := est_boosté u |} ]> (users w)).
    { rewrite update_rows_eq_id. apply map_eq; intros id.
      rewrite lookup_alter, lookup_insert.
      destruct (decide (uid = id)) as [<-|Hne]; [|reflexivity].
      rewrite Hu. reflexivity. }
    destruct s; simpl in Hconf |- *.
    + unfold Seo.create_checkout_session, Seo.stripe. rewrite Hconf, Huid.
      unfold try_catch, bind, users_select, call_customers_create, users_update,
        call_sessions_create, ret.
      rewrite Hselect. simpl. rewrite Hu, Hfalsy, Hcreate, Hupdate. simpl.
      rewrite Hrow.
      destruct (sessions_create sdk _) eqn:Hsession; do 3 eexists;
        (split; [reflexivity|]); simpl; rewrite <- !app_assoc; simpl;
        (split; [reflexivity|]); repeat (split; [reflexivity|]);
        rewrite Hsession; reflexivity.
    + unfold Sub.create_checkout_session. rewrite Huid.
      unfold try_catch, bind, users_select, call_customers_create, users_update,
        call_sessions_create, ret.
      rewrite Hselect. simpl. rewrite Hu, Hfalsy, Hcreate, Hupdate. simpl.
      rewrite Hrow.
      destruct (sessions_create sdk _) eqn:Hsession; do 3 eexists;
        (split; [reflexivity|]); simpl; rewrite <- !app_assoc; simpl;
        (split; [reflexivity|]); repeat (split; [reflexivity|]);
        rewrite Hsession; reflexivity.
  - unfold Pay.create_checkout_session. rewrite Huid.
    unfold try_catch, bind, call_sessions_create, ret.
    destruct (sessions_create sdk _); do 3 eexists;
      (split; [reflexivity|]); simpl; repeat split; reflexivity.
  - unfold PayBasic.create_checkout_session. simpl. rewrite Huid.
    unfold try_catch, bind, call_sessions_create, ret.
    destruct (sessions_create sdk _); do 3 eexists;
      (split; [reflexivity|]); simpl; repeat split; reflexivity.
Qed.

Lemma C8_checkout_session_created_witness :
  exists w' params,
    index_create_checkout_session sub full_env (sample_sdk status_update) all_served
      {| userId := Some "u1"; email := Some "u1@example.org"; boostType := None;
         origin := None |}
      (world_of {[ "u1" := blank_user ]})
    = (Normal {| status := 200;
                 body := json [("url", JStr "https://checkout.stripe.com/c/cs_1")] |}, w') /\
    users w' !! "u1"
    = Some {| stripe_customer_id := Some "cus_1"; stripe_subscription_id := None;
              est_booste := false; est_boosté := false |} /\
    last (trace w') = Some (stripe_checkout_sessions_create params) /\
    sp_client_reference_id params = "u1" /\
    sp_price params = Some "price_1".
Proof.
  destruct (C8_checkout_session_created full_env (sample_sdk status_update) all_served
              {| userId := Some "u1"; email := Some "u1@example.org"; boostType := None;
                 origin := None |}
              "u1" (world_of {[ "u1" := blank_user ]}) eq_refl)
    as [Hindex _].
  destruct (Hindex sub blank_user "cus_1" eq_refl eq_refl eq_refl eq_refl eq_refl eq_refl)
    as (r & w' & params & Hrun & Htrace & Husers & _ & Href & Hprice & Hr).
  exists w', params. subst r. split; [exact Hrun|].
  split; [rewrite Husers; reflexivity|].
  split; [rewrite Htrace; reflexivity|].
  split; [exact Href|exact Hprice].
Defined.

(** * Further properties of the servers *)

(** ** Strings *)

Lemma append_cons a s t : String a s +:+ t = String a (s +:+ t).
Proof. reflexivity. Qed.

Lemma append_nil_l t : EmptyString +:+ t = t.
Proof. reflexivity. Qed.

Lemma append_nil_r s : s +:+ EmptyString = s.
Proof. induction s as [|a s IH]; [reflexivity|]. rewrite append_cons, IH. reflexivity. Qed.

Lemma append_assoc s t u : (s +:+ t) +:+ u = s +:+ (t +:+ u).
Proof.
  induction s as [|a s IH]; [reflexivity|]. rewrite !append_cons, IH. reflexivity.
Qed.

Lemma chars_append s t :
  list_ascii_of_string (s +:+ t) = (list_ascii_of_string s ++ list_ascii_of_string t)%list.
Proof.
  induction s as [|a s IH]; [reflexivity|].
  rewrite append_cons. simpl. rewrite IH. reflexivity.
Qed.

(** ** [strip_trailing_slashes] *)

Lemma append_slashes_succ s n : s +:+ slashes (S n) = (s +:+ slashes n) +:+ "/".
Proof.
  induction s as [|a s IH].
  - rewrite !append_nil_l. induction n as [|n IHn]; [reflexivity|].
    simpl in *. rewrite append_cons, <- IHn. reflexivity.
  - rewrite !append_cons, IH. reflexivity.
Qed.

Lemma strip_trailing_slashes_slashes n : strip_trailing_slashes (slashes n) = "".
Proof. induction n as [|n IH]; [reflexivity|]. simpl. rewrite IH. reflexivity. Qed.

Lemma strip_trailing_slashes_append_slashes s n :
  strip_trailing_slashes (s +:+ slashes n) = strip_trailing_slashes s.
Proof.
  induction s as [|a s IH].
  - rewrite append_nil_l. apply strip_trailing_slashes_slashes.
  - rewrite append_cons. simpl. rewrite IH. reflexivity.
Qed.

Lemma strip_trailing_slashes_decompose s :
  exists n, s = strip_trailing_slashes s +:+ slashes n.
Proof.
  induction s as [|a s [n IH]]; [exists O; reflexivity|]. simpl.
  destruct (Ascii.eqb_spec a "/") as [->|Hne]; simpl.
  - destruct (String.eqb_spec (strip_trailing_slashes s) "") as [Hempty|Hfull].
    + exists (S n). simpl. rewrite append_nil_l. f_equal.
      rewrite IH at 1. rewrite Hempty. reflexivity.
    + exists n. rewrite append_cons. f_equal. exact IH.
  - exists n. rewrite append_cons. f_equal. exact IH.
Qed.

Lemma strip_trailing_slashes_no_slash s t : strip_trailing_slashes s <> t +:+ "/".
Proof.
  revert t. induction s as [|a s IH]; intros t; simpl.
  - destruct t; discriminate.
  - destruct (Ascii.eqb_spec a "/") as [->|Hne]; simpl.
    + destruct (String.eqb_spec (strip_trailing_slashes s) "") as [Hempty|Hfull].
      * destruct t; discriminate.
      * destruct t as [|b t]; rewrite ?append_nil_l, ?append_cons.
        -- intros [= Hs]. contradiction.
        -- intros [= _ Hs]. exact (IH _ Hs).
    + destruct t as [|b t]; rewrite ?append_nil_l, ?append_cons.
      * intros [= Ha _]. contradiction.
      * intros [= _ Hs]. exact (IH _ Hs).
Qed.

(** X1: [strip_trailing_slashes] removes exactly the slashes that end the
    string: the input is the result followed by slashes only, the result
    does not end with a slash, and a string without a final slash is given
    back from any number of slashes added to it. *)
Theorem strip_trailing_slashes_spec s :
  (exists n, s = strip_trailing_slashes s +:+ slashes n) /\
  (forall t, strip_trailing_slashes s <> t +:+ "/") /\
  (forall n, (forall t, s <> t +:+ "/") ->
             strip_trailing_slashes (s +:+ slashes n) = s).
Proof.
  split; [apply strip_trailing_slashes_decompose|].
  split; [apply strip_trailing_slashes_no_slash|].
  intros n Hclean. rewrite strip_trailing_slashes_append_slashes.
  destruct (strip_trailing_slashes_decompose s) as [[|k] Hk].
  - rewrite append_nil_r in Hk. symmetry. exact Hk.
  - rewrite append_slashes_succ in Hk. destruct (Hclean _ Hk).
Qed.

Lemma strip_trailing_slashes_spec_witness :
  strip_trailing_slashes ("https://parrainagesport.fr" +:+ slashes 2)
  = "https://parrainagesport.fr".
Proof.
  apply (proj2 (proj2 (strip_trailing_slashes_spec "https://parrainagesport.fr")) 2%nat).
  exact (proj1 (proj2 (strip_trailing_slashes_spec "https://parrainagesport.fr"))).
Defined.

(** ** [xmlEscape] *)

Lemma replace_all_append c by_ s t :
  replace_all c by_ (s +:+ t) = replace_all c by_ s +:+ replace_all c by_ t.
Proof.
  induction s as [|a s IH]; [reflexivity|].
  rewrite append_cons. simpl. rewrite IH.
  destruct (Ascii.eqb a c); [rewrite append_assoc|rewrite append_cons]; reflexivity.
Qed.

(** Escaping distributes over concatenation. *)
Lemma xmlEscape_append s t : xmlEscape (s +:+ t) = xmlEscape s +:+ xmlEscape t.
Proof. unfold xmlEscape. rewrite !replace_all_append. reflexivity. Qed.

Lemma xmlEscape_cons a s : xmlEscape (String a s) = xmlEscape (String a "") +:+ xmlEscape s.
Proof.
  change (String a s) with (String a "" +:+ s).
  unfold xmlEscape. rewrite !replace_all_append. reflexivity.
Qed.

(** What one character becomes. *)
Lemma xmlEscape_char a :
  a = "&"%char /\ xmlEscape (String a "") = "&amp;" \/
  a = "<"%char /\ xmlEscape (String a "") = "&lt;" \/
  a = ">"%char /\ xmlEscape (String a "") = "&gt;" \/
  a = dquote /\ xmlEscape (String a "") = "&quot;" \/
  a = "'"%char /\ xmlEscape (String a "") = "&apos;" \/
  (a <> "&"%char /\ a <> "<"%char /\ a <> ">"%char /\ a <> dquote /\ a <> "'"%char) /\
  xmlEscape (String a "") = String a "".
Proof.
  destruct (Ascii.eqb_spec a "&") as [->|Hamp]; [left; split; reflexivity|right].
  destruct (Ascii.eqb_spec a "<") as [->|Hlt]; [left; split; reflexivity|right].
  destruct (Ascii.eqb_spec a ">") as [->|Hgt]; [left; split; reflexivity|right].
  destruct (Ascii.eqb_spec a dquote) as [->|Hquot]; [left; split; reflexivity|right].
  destruct (Ascii.eqb_spec a "'") as [->|Hapos]; [left; split; reflexivity|right].
  split; [auto|].
  unfold xmlEscape. simpl.
  apply Ascii.eqb_neq in Hamp, Hlt, Hgt, Hquot, Hapos.
  rewrite Hamp. simpl. rewrite Hlt. simpl. rewrite Hgt. simpl.
  rewrite Hquot. simpl. rewrite Hapos. reflexivity.
Qed.

(** X2: the five replacements in a row escape each character of the input
    once: the escaped text is empty for the empty string and otherwise the
    entity of the first character, or that character itself when it is none
    of the five, followed by the escaped rest. The [&] of an entity written
    by the first pass is not escaped again, and the entities written by the
    later passes hold none of the characters the passes after them replace. *)
Theorem xmlEscape_per_character a s :
  xmlEscape "" = "" /\
  xmlEscape (String a s)
  = (if Ascii.eqb a "&" then "&amp;"
     else if Ascii.eqb a "<" then "&lt;"
     else if Ascii.eqb a ">" then "&gt;"
     else if Ascii.eqb a dquote then "&quot;"
     else if Ascii.eqb a "'" then "&apos;"
     else String a "") +:+ xmlEscape s.
Proof.
  split; [reflexivity|]. rewrite xmlEscape_cons. f_equal.
  destruct (Ascii.eqb_spec a "&") as [->|Hamp]; [reflexivity|].
  destruct (Ascii.eqb_spec a "<") as [->|Hlt]; [reflexivity|].
  destruct (Ascii.eqb_spec a ">") as [->|Hgt]; [reflexivity|].
  destruct (Ascii.eqb_spec a dquote) as [->|Hquot]; [reflexivity|].
  destruct (Ascii.eqb_spec a "'") as [->|Hapos]; [reflexivity|].
  destruct (xmlEscape_char a)
    as [[-> _]|[[-> _]|[[-> _]|[[-> _]|[[-> _]|[_ Hsame]]]]]]; congruence.
Qed.

(** X3: the escaped text holds none of the characters [<], [>], double
    quote and single quote, whatever the input. *)
Theorem xmlEscape_clean s :
  Forall (fun c => c <> "<"%char /\ c <> ">"%char /\ c <> dquote /\ c <> "'"%char)
    (list_ascii_of_string (xmlEscape s)).
Proof.
  induction s as [|a s IH]; [constructor|].
  rewrite xmlEscape_cons, chars_append. apply Forall_app. split; [|exact IH].
  destruct (xmlEscape_char a)
    as [[_ ->]|[[_ ->]|[[_ ->]|[[_ ->]|[[_ ->]|[(_ & Hlt & Hgt & Hquot & Hapos) ->]]]]]];
    simpl; repeat constructor; try discriminate; assumption.
Qed.

(** X4: escaping loses nothing: two texts with the same escaped form are
    the same text. *)
Theorem xmlEscape_inj s t : xmlEscape s = xmlEscape t -> s = t.
Proof.
  revert t. induction s as [|a s IH]; intros [|b t].
  - reflexivity.
  - rewrite (xmlEscape_cons b t). intros Heq. exfalso.
    destruct (xmlEscape_char b)
      as [[_ Hb]|[[_ Hb]|[[_ Hb]|[[_ Hb]|[[_ Hb]|[_ Hb]]]]]];
      rewrite Hb in Heq; discriminate.
  - rewrite (xmlEscape_cons a s). intros Heq. exfalso.
    destruct (xmlEscape_char a)
      as [[_ Ha]|[[_ Ha]|[[_ Ha]|[[_ Ha]|[[_ Ha]|[_ Ha]]]]]];
      rewrite Ha in Heq; discriminate.
  - rewrite (xmlEscape_cons a s), (xmlEscape_cons b t). intros Heq.
    destruct (xmlEscape_char a)
      as [[-> Ha]|[[-> Ha]|[[-> Ha]|[[-> Ha]|[[-> Ha]|[(Ha1 & Ha2 & Ha3 & Ha4 & Ha5) Ha]]]]]];
      destruct (xmlEscape_char b)
        as [[-> Hb]|[[-> Hb]|[[-> Hb]|[[-> Hb]|[[-> Hb]|[(Hb1 & Hb2 & Hb3 & Hb4 & Hb5) Hb]]]]]];
      rewrite ?Ha, ?Hb in Heq; rewrite ?append_cons, ?append_nil_l in Heq;
      try discriminate;
      try (injection Heq as Heq; f_equal; apply IH; exact Heq);
      try (injection Heq as Hhead _; congruence).
    injection Heq as -> Heq. f_equal. apply IH. exact Heq.
Qed.

Lemma xmlEscape_inj_witness : "a<b&c" = "a<b&c".
Proof. exact (xmlEscape_inj "a<b&c" "a<b&c" eq_refl). Defined.

(** ** robots.txt and sitemap.xml *)

(** X5: the [Sitemap:] line of robots.txt is the public base URL without
    the slashes that end it, followed by [/sitemap.xml]: however many
    slashes end [PUBLIC_BASE_URL], exactly one separates the base from the
    file name. *)
Theorem robots_txt_sitemap_line env :
  exists base n,
    Seo.public_base_url env = base +:+ slashes n /\
    (forall t, base <> t +:+ "/") /\
    Seo.robots_txt env
    = {| page_status := 200;
         content_type := Some "text/plain";
         cache_control := None;
         page_body :=
           "User-agent: *" +:+ nl +:+ "Allow: /" +:+ nl +:+
           "Sitemap: " +:+ base +:+ "/sitemap.xml" +:+ nl |}.
Proof.
  destruct (strip_trailing_slashes_decompose (Seo.public_base_url env)) as [n Hn].
  exists (strip_trailing_slashes (Seo.public_base_url env)), n.
  split; [exact Hn|]. split; [apply strip_trailing_slashes_no_slash|reflexivity].
Qed.

Lemma join_cons x l : join (x :: l) = x +:+ join l.
Proof.
  destruct l as [|y l]; [|reflexivity].
  unfold join; simpl. rewrite append_nil_r. reflexivity.
Qed.

Lemma join_app l1 l2 : join (l1 ++ l2) = join l1 +:+ join l2.
Proof.
  induction l1 as [|x l1 IH]; [reflexivity|].
  rewrite <- app_comm_cons, !join_cons, IH, append_assoc. reflexivity.
Qed.

(** Spreading a string into its characters and joining them gives the
    string back. *)
Lemma join_spread s : join (spread s) = s.
Proof.
  induction s as [|a s IH]; [reflexivity|].
  unfold spread in *. simpl. rewrite join_cons, IH. reflexivity.
Qed.

Lemma map_or_throw_None {A B} (f : A -> option B) l :
  map_or_throw f l = None <-> exists x, In x l /\ f x = None.
Proof.
  induction l as [|x l IH]; simpl.
  - split; [discriminate|intros (x & [] & _)].
  - destruct (f x) as [y|] eqn:Hx.
    + destruct (map_or_throw f l) as [ys|].
      * split; [discriminate|]. intros (z & [<-|Hz] & Hfz); [congruence|].
        discriminate (proj2 IH (ex_intro _ z (conj Hz Hfz))).
      * split; [|reflexivity]. intros _.
        destruct (proj1 IH eq_refl) as (z & Hz & Hfz). eauto.
    + split; [|reflexivity]. eauto.
Qed.

Lemma map_or_throw_Some {A B} (f : A -> option B) l ys :
  map_or_throw f l = Some ys -> Forall2 (fun x y => f x = Some y) l ys.
Proof.
  revert ys. induction l as [|x l IH]; simpl; intros ys.
  - intros [= <-]. constructor.
  - destruct (f x) as [y|] eqn:Hx; [|discriminate].
    destruct (map_or_throw f l) as [zs|]; [|discriminate].
    intros [= <-]. constructor; auto.
Qed.

Lemma profile_entry_None env toISOString u :
  Seo.profile_entry env toISOString u = None
  <-> exists d, if_truthy (updated_at u) = Some d /\ toISOString d = None.
Proof.
  unfold Seo.profile_entry.
  destruct (if_truthy (updated_at u)) as [d|].
  - destruct (toISOString d) eqn:Hd.
    + split; [discriminate|]. intros (d' & [= <-] & Hd'). congruence.
    + split; [eauto|reflexivity].
  - split; [discriminate|]. intros (d & [=] & _).
Qed.

(** X6: the sitemap is all or nothing. When the read fails, or one row has
    a date that cannot be converted, the answer is 500 with the text
    [sitemap unavailable] and no cache header. Otherwise it is 200,
    [application/xml], cacheable for an hour, and the document holds the
    static entry followed by one entry per row, in order; a [null] result
    counts as no row. *)
Theorem sitemap_xml_all_or_nothing env toISOString read :
  (sitemap_fails toISOString read ->
   Seo.sitemap_xml env toISOString read
   = {| page_status := 500; content_type := None; cache_control := None;
        page_body := "sitemap unavailable" |}) /\
  (forall data,
     read = read_rows data ->
     (forall u d, In u (default [] data) -> if_truthy (updated_at u) = Some d ->
                  toISOString d <> None) ->
     exists entries,
       Forall2 (fun u e => Seo.profile_entry env toISOString u = Some e)
         (default [] data) entries /\
       Seo.sitemap_xml env toISOString read
       = {| page_status := 200;
            content_type := Some "application/xml";
            cache_control := Some "public, max-age=3600";
            page_body :=
              Seo.sitemap_document
                (Seo.static_entry {| loc := Seo.public_base_url env +:+ "/";
                                     changefreq := Some "weekly";
                                     priority := Some "0.8" |}
                 +:+ join entries) |}).
Proof.
  split.
  - intros [(m & [-> | ->]) | (data & u & d & -> & Hu & Hd & Hiso)]; try reflexivity.
    unfold Seo.sitemap_xml. simpl.
    assert (Hnone : map_or_throw (Seo.profile_entry env toISOString) data = None).
    { apply map_or_throw_None. exists u. split; [exact Hu|].
      apply profile_entry_None. eauto. }
    rewrite Hnone. reflexivity.
  - intros data -> Hdates. unfold Seo.sitemap_xml.
    destruct (map_or_throw (Seo.profile_entry env toISOString) (default [] data))
      as [entries|] eqn:Hmap.
    + exists entries. split; [apply map_or_throw_Some; exact Hmap|].
      rewrite join_app, !join_spread. simpl map. rewrite join_cons.
      unfold join at 1; simpl String.concat. rewrite append_nil_r. reflexivity.
    + apply map_or_throw_None in Hmap as (u & Hu & Hnone).
      apply profile_entry_None in Hnone as (d & Hd & Hiso).
      destruct (Hdates u d Hu Hd Hiso).
Qed.

Lemma sitemap_xml_all_or_nothing_witness :
  page_status
    (Seo.sitemap_xml full_env sample_toISOString
       (read_rows (Some [ {| profile_id := "p1";
                             updated_at := Some "2024-05-01 10:00:00+00" |};
                          {| profile_id := "p2"; updated_at := Some "yesterday" |} ])))
  = 500.
Proof.
  rewrite (proj1 (sitemap_xml_all_or_nothing full_env sample_toISOString _)).
  - reflexivity.
  - right. exists [ {| profile_id := "p1"; updated_at := Some "2024-05-01 10:00:00+00" |};
                    {| profile_id := "p2"; updated_at := Some "yesterday" |} ],
             {| profile_id := "p2"; updated_at := Some "yesterday" |}, "yesterday".
    split; [reflexivity|]. split; [right; left; reflexivity|]. split; reflexivity.
Defined.

(** ** What the webhooks keep *)

Lemma dom_update_rows p f (t : gmap string User) : dom (update_rows p f t) = dom t.
Proof.
  apply set_eq; intros id. rewrite !elem_of_dom, lookup_update_rows.
  destruct (t !! id); simpl; split; intros [x Hx]; eauto; discriminate.
Qed.

(** The world an index.js webhook leaves: untouched, or one update was
    logged and then carried out or not. The update never names
    [est_boosté]. *)
Lemma index_webhook_world s env sdk storage req w :
  (index_webhook s env sdk storage req w).2 = w \/
  exists p f,
    set_est_boosté p = None /\
    ((index_webhook s env sdk storage req w).2 = log (storage_call (update p f)) w \/
     (index_webhook s env sdk storage req w).2
     = set_users (update_rows p f (users w)) (log (storage_call (update p f)) w)).
Proof.
  assert (Hupdate : forall p f,
             set_est_boosté p = None ->
             (try_catch (let* _ := users_update storage p f in ret received)
                (fun _ => ret server_error) w).2 = w \/
             exists p' f',
               set_est_boosté p' = None /\
               ((try_catch (let* _ := users_update storage p f in ret received)
                   (fun _ => ret server_error) w).2 = log (storage_call (update p' f')) w \/
                (try_catch (let* _ := users_update storage p f in ret received)
                   (fun _ => ret server_error) w).2
                = set_users (update_rows p' f' (users w)) (log (storage_call (update p' f')) w))).
  { intros p f Hp. right. exists p, f. split; [exact Hp|].
    rewrite acknowledge_update. destruct (storage (update p f)); simpl; auto. }
  destruct (constructEvent sdk (raw_body req) (stripe_signature req)
              (STRIPE_WEBHOOK_SECRET env)) as [event|message] eqn:Hevent.
  - destruct (configured s env) eqn:Hconf.
    + rewrite (index_webhook_verified s env sdk storage req event w Hconf Hevent).
      destruct event as [session|inv|sub'|sub'|type']; cbn [switch_event_type].
      * destruct (if_truthy (client_reference_id session));
          [destruct (if_truthy (customer session))|]; try (left; reflexivity).
        apply Hupdate. reflexivity.
      * destruct (if_truthy (invoice_subscription inv)); [|left; reflexivity].
        apply Hupdate. reflexivity.
      * apply Hupdate. reflexivity.
      * apply Hupdate. reflexivity.
      * left. reflexivity.
    + left. destruct s; [|discriminate]. simpl in *.
      unfold Seo.webhook, Seo.stripe. rewrite Hconf. reflexivity.
  - left. rewrite (index_webhook_rejected s env sdk storage req message w Hevent).
    reflexivity.
Qed.

(** The world a payment webhook leaves. *)
Lemma pay_webhook_world env sdk storage req w :
  (Pay.webhook env sdk storage req w).2 = w \/
  exists uid session,
    let insert := storage_call (insert_paiement (logged_payment uid session)) in
    let patch := {| set_stripe_customer_id := None; set_stripe_subscription_id := None;
                    set_est_booste := None; set_est_boosté := Some true |} in
    let written :=
      match storage (insert_paiement (logged_payment uid session)) with
      | Served => set_paiements (paiements w ++ [logged_payment uid session]) (log insert w)
      | _ => log insert w
      end in
    (Pay.webhook env sdk storage req w).2 = log insert w \/
    (Pay.webhook env sdk storage req w).2 = log (storage_call (update patch (eq_id uid))) written \/
    (Pay.webhook env sdk storage req w).2
    = set_users (update_rows patch (eq_id uid) (users w))
        (log (storage_call (update patch (eq_id uid))) written).
Proof.
  destruct (constructEvent sdk (raw_body req) (stripe_signature req)
              (STRIPE_WEBHOOK_SECRET env)) as [event|message] eqn:Hevent.
  - destruct event as [session|inv|sub'|sub'|type'];
      try (left; unfold Pay.webhook; simpl; rewrite Hevent; reflexivity).
    rewrite (pay_webhook_checkout env sdk storage req session w Hevent).
    destruct (if_truthy (js_or _ _)) as [uid|]; [|left; reflexivity].
    right. exists uid, session. fold (logged_payment uid session).
    unfold try_catch, bind, paiements_insert, users_update, ret.
    destruct (storage (insert_paiement (logged_payment uid session))); simpl; auto;
      destruct (storage (update _ _)); simpl; auto.
  - left. rewrite (pay_webhook_rejected env sdk storage req message w Hevent). reflexivity.
Qed.

(** X7: no webhook delivery, verified or not and whatever the store
    answers, adds or removes an account. The webhooks of index.js leave the
    [paiements] table alone; a payment webhook adds at most one row to it,
    at its end. *)
Theorem webhooks_keep_the_accounts env sdk storage req w :
  (forall s,
     dom (users (index_webhook s env sdk storage req w).2) = dom (users w) /\
     paiements (index_webhook s env sdk storage req w).2 = paiements w) /\
  (dom (users (Pay.webhook env sdk storage req w).2) = dom (users w) /\
   exists added,
     paiements (Pay.webhook env sdk storage req w).2 = (paiements w ++ added)%list /\
     (length added <= 1)%nat) /\
  (dom (users (PayBasic.webhook env sdk storage req w).2) = dom (users w) /\
   exists added,
     paiements (PayBasic.webhook env sdk storage req w).2 = (paiements w ++ added)%list /\
     (length added <= 1)%nat).
Proof.
  assert (Hpay : dom (users (Pay.webhook env sdk storage req w).2) = dom (users w) /\
                 exists added,
                   paiements (Pay.webhook env sdk storage req w).2
                   = (paiements w ++ added)%list /\ (length added <= 1)%nat).
  { destruct (pay_webhook_world env sdk storage req w)
      as [-> | (uid & session & [-> | [-> | ->]])].
    - split; [reflexivity|]. exists []. rewrite app_nil_r. split; [reflexivity|simpl; lia].
    - split; [reflexivity|]. exists []. rewrite app_nil_r. split; [reflexivity|simpl; lia].
    - destruct (storage (insert_paiement _)); simpl; (split; [reflexivity|]);
        [exists [logged_payment uid session]|exists []|exists []];
        rewrite ?app_nil_r; split; try reflexivity; simpl; lia.
    - destruct (storage (insert_paiement _)); simpl;
        (split; [apply dom_update_rows|]);
        [exists [logged_payment uid session]|exists []|exists []];
        rewrite ?app_nil_r; split; try reflexivity; simpl; lia. }
  split; [|split; [exact Hpay|rewrite pay_basic_webhook_world; exact Hpay]].
  intros s.
  destruct (index_webhook_world s env sdk storage req w)
    as [-> | (p & f & _ & [-> | ->])]; simpl; split; try reflexivity.
  apply dom_update_rows.
Qed.

(** X8: the two families of servers write different flags. A webhook of
    index.js never changes the [est_boosté] column; a payment webhook never
    changes [stripe_customer_id], [stripe_subscription_id] or
    [est_booste]. *)
Theorem webhooks_write_their_own_flag env sdk storage req w id :
  (forall s,
     est_boosté <$> users (index_webhook s env sdk storage req w).2 !! id
     = est_boosté <$> users w !! id) /\
  (fun u => (stripe_customer_id u, stripe_subscription_id u, est_booste u))
    <$> users (Pay.webhook env sdk storage req w).2 !! id
  = (fun u => (stripe_customer_id u, stripe_subscription_id u, est_booste u))
      <$> users w !! id /\
  (fun u => (stripe_customer_id u, stripe_subscription_id u, est_booste u))
    <$> users (PayBasic.webhook env sdk storage req w).2 !! id
  = (fun u => (stripe_customer_id u, stripe_subscription_id u, est_booste u))
      <$> users w !! id.
Proof.
  assert (Hpay : (fun u => (stripe_customer_id u, stripe_subscription_id u, est_booste u))
                   <$> users (Pay.webhook env sdk storage req w).2 !! id
                 = (fun u => (stripe_customer_id u, stripe_subscription_id u, est_booste u))
                     <$> users w !! id).
  { destruct (pay_webhook_world env sdk storage req w)
      as [-> | (uid & session & [-> | [-> | ->]])]; try reflexivity.
    - destruct (storage (insert_paiement _)); reflexivity.
    - assert (Hrows : forall t : gmap string User,
                 (fun u => (stripe_customer_id u, stripe_subscription_id u, est_booste u))
                   <$> update_rows
                         {| set_stripe_customer_id := None; set_stripe_subscription_id := None;
                            set_est_booste := None; set_est_boosté := Some true |}
                         (eq_id uid) t !! id
                 = (fun u => (stripe_customer_id u, stripe_subscription_id u, est_booste u))
                     <$> t !! id).
      { intros t. rewrite lookup_update_rows. destruct (t !! id) as [u|]; [|reflexivity].
        simpl. destruct (String.eqb id uid); reflexivity. }
      destruct (storage (insert_paiement _)); simpl; apply Hrows. }
  split; [|split; [exact Hpay|rewrite pay_basic_webhook_world; exact Hpay]].
  intros s.
  destruct (index_webhook_world s env sdk storage req w)
    as [-> | (p & f & Hp & [-> | ->])]; simpl; try reflexivity.
  rewrite lookup_update_rows. destruct (users w !! id) as [u|]; [|reflexivity].
  simpl. destruct (matches f id u); [|reflexivity].
  unfold apply_patch; simpl. rewrite Hp. reflexivity.
Qed.

(** ** Subscription events *)

(** X9: a verified [invoice.payment_succeeded] event whose subscription id
    is present sets [est_booste = true], once the store carries out the
    update, on the accounts that store that id and on no other; an invoice
    without a subscription id is acknowledged without any store call. *)
Theorem invoice_payment_entitles s env sdk storage req inv w :
  configured s env = true ->
  verified sdk env req (invoice_payment_succeeded inv) ->
  (forall sid,
     if_truthy (invoice_subscription inv) = Some sid ->
     storage (update {| set_stripe_customer_id := None;
                        set_stripe_subscription_id := None;
                        set_est_booste := Some true;
                        set_est_boosté := None |}
                (eq_stripe_subscription_id sid)) = Served ->
     exists w',
       index_webhook s env sdk storage req w
         = (Normal {| status := 200; body := json [("received", JBool true)] |}, w') /\
       forall id u, users w !! id = Some u ->
         (stripe_subscription_id u = Some sid ->
          users w' !! id = Some {| stripe_customer_id := stripe_customer_id u;
                                   stripe_subscription_id := stripe_subscription_id u;
                                   est_booste := true;
                                   est_boosté := est_boosté u |}) /\
         (stripe_subscription_id u <> Some sid -> users w' !! id = Some u)) /\
  (truthy (invoice_subscription inv) = false ->
   index_webhook s env sdk storage req w
     = (Normal {| status := 200; body := json [("received", JBool true)] |}, w)).
Proof.
  intros Hconf Hver.
  rewrite (index_webhook_verified _ _ _ _ _ _ _ Hconf Hver).
  cbn [switch_event_type]. split.
  - intros sid -> Hserved. rewrite acknowledge_update, Hserved.
    eexists; split; [reflexivity|].
    intros id u Hu. simpl. rewrite lookup_update_rows, Hu. simpl.
    split; intros Hsub.
    + rewrite Hsub, String.eqb_refl. unfold apply_patch; simpl. rewrite Hsub. reflexivity.
    + destruct (stripe_subscription_id u) as [x|]; [|reflexivity].
      destruct (String.eqb_spec x sid); [congruence|reflexivity].
  - unfold truthy. destruct (if_truthy (invoice_subscription inv)); [discriminate|].
    reflexivity.
Qed.

Lemma invoice_payment_entitles_witness :
  exists w',
    index_webhook sub full_env
      (yields (invoice_payment_succeeded {| invoice_subscription := Some "sub_1" |}))
      all_served (signed "{}") (one_subscriber (Some "sub_1") false)
    = (Normal {| status := 200; body := json [("received", JBool true)] |}, w') /\
    users w' !! "u1" = Some (subscriber "cus_1" "sub_1" true).
Proof.
  destruct (invoice_payment_entitles sub full_env
              (yields (invoice_payment_succeeded {| invoice_subscription := Some "sub_1" |}))
              all_served (signed "{}") {| invoice_subscription := Some "sub_1" |}
              (one_subscriber (Some "sub_1") false) eq_refl eq_refl)
    as [Hknown _].
  destruct (Hknown "sub_1" eq_refl eq_refl) as [w' [Hrun Hrows]].
  exists w'. split; [exact Hrun|].
  apply (Hrows "u1" (subscriber "cus_1" "sub_1" false)); reflexivity.
Defined.

(** The update an event keyed by [sid] triggers. *)
Lemma keyed_by_update storage sid e :
  keyed_by sid e ->
  exists p,
    subscription_patch sid p /\
    switch_event_type storage e = users_update storage p (eq_stripe_subscription_id sid).
Proof.
  destruct e as [session|inv|sub'|sub'|type']; simpl; try contradiction.
  - intros ->. eexists; split; [|reflexivity].
    repeat split; simpl; eauto.
  - intros <-. eexists; split; [|reflexivity].
    repeat split; simpl; eauto.
  - intros <-. eexists; split; [|reflexivity].
    repeat split; simpl; eauto.
Qed.

(** A second patch of that shape overwrites the first on the same rows. *)
Lemma update_rows_overwrite sid p1 p2 (t : gmap string User) :
  subscription_patch sid p1 ->
  subscription_patch sid p2 ->
  update_rows p2 (eq_stripe_subscription_id sid)
    (update_rows p1 (eq_stripe_subscription_id sid) t)
  = update_rows p2 (eq_stripe_subscription_id sid) t.
Proof.
  destruct p1 as [c1 s1 f1 a1], p2 as [c2 s2 f2 a2]. unfold subscription_patch. simpl.
  intros (-> & -> & [b1 ->] & Hs1) (-> & -> & [b2 ->] & Hs2).
  apply map_eq; intros id. rewrite !lookup_update_rows.
  destruct (t !! id) as [u|]; [|reflexivity]. simpl. f_equal.
  destruct u as [cu su bu au]. unfold apply_patch. simpl.
  destruct su as [x|]; [|destruct Hs1 as [-> | ->]; reflexivity].
  destruct (String.eqb_spec x sid) as [->|Hne].
  - destruct Hs1 as [-> | ->], Hs2 as [-> | ->]; simpl;
      rewrite String.eqb_refl; reflexivity.
  - destruct Hs1 as [-> | ->]; simpl;
      destruct (String.eqb_spec x sid); try contradiction; reflexivity.
Qed.

(** X10: among the events that address accounts through the same stored
    subscription id (invoice paid, subscription updated, subscription
    deleted), the last one delivered decides: once the store carries out
    both updates, the [users] table after two deliveries is the table the
    second delivery alone would have left. Nothing orders the events. *)
Theorem last_subscription_event_wins s env sdk storage req1 req2 e1 e2 sid w :
  configured s env = true ->
  verified sdk env req1 e1 ->
  verified sdk env req2 e2 ->
  keyed_by sid e1 ->
  keyed_by sid e2 ->
  (forall q, storage q = Served) ->
  users (index_webhook s env sdk storage req2
           (index_webhook s env sdk storage req1 w).2).2
  = users (index_webhook s env sdk storage req2 w).2.
Proof.
  intros Hconf Hver1 Hver2 Hkey1 Hkey2 Hserved.
  rewrite !(index_webhook_verified _ _ _ _ _ _ _ Hconf Hver1),
          !(index_webhook_verified _ _ _ _ _ _ _ Hconf Hver2).
  destruct (keyed_by_update storage sid e1 Hkey1) as (p1 & Hp1 & ->).
  destruct (keyed_by_update storage sid e2 Hkey2) as (p2 & Hp2 & ->).
  rewrite !acknowledge_update, !Hserved. simpl.
  apply update_rows_overwrite; assumption.
Qed.

Lemma last_subscription_event_wins_witness :
  est_booste <$>
    users (index_webhook sub full_env (sample_sdk status_update) all_served
             (signed "canceled")
             (index_webhook sub full_env (sample_sdk status_update) all_served
                (signed "active") (one_subscriber (Some "sub_1") false)).2).2 !! "u1"
  = Some false.
Proof.
  rewrite (last_subscription_event_wins sub full_env (sample_sdk status_update) all_served
             (signed "active") (signed "canceled")
             (status_update "active") (status_update "canceled") "sub_1"
             (one_subscriber (Some "sub_1") false)
             eq_refl eq_refl eq_refl eq_refl eq_refl (fun _ => eq_refl)).
  reflexivity.
Defined.

(** ** The first server without its Stripe client *)

(** X11: when the secret key is missing or empty, the three Stripe routes
    of the first server of index.js answer 501 to every request, before any
    check of the request, and leave the world as it was: no signature is
    verified, no store call and no Stripe call is made. *)
Theorem seo_without_key_answers_501 env sdk storage portal w :
  truthy (STRIPE_SECRET_KEY env) = false ->
  (forall req,
     Seo.webhook env sdk storage req w
     = (Normal {| status := 501; body := text "Stripe not configured" |}, w)) /\
  (forall req,
     Seo.create_checkout_session env sdk storage req w
     = (Normal {| status := 501; body := json [("error", JStr "Stripe not configured")] |},
        w)) /\
  (forall req,
     Seo.create_portal_session env sdk storage portal req w
     = (Normal {| status := 501; body := json [("error", JStr "Stripe not configured")] |},
        w)).
Proof.
  intros Hkey.
  unfold Seo.webhook, Seo.create_checkout_session, Seo.create_portal_session, Seo.stripe.
  rewrite Hkey. repeat split; reflexivity.
Qed.

Lemma seo_without_key_answers_501_witness :
  Seo.webhook store_only_env (sample_sdk status_update) all_served (signed "active")
    (one_subscriber (Some "sub_1") false)
  = (Normal {| status := 501; body := text "Stripe not configured" |},
     one_subscriber (Some "sub_1") false).
Proof.
  exact (proj1 (seo_without_key_answers_501 store_only_env (sample_sdk status_update)
                  all_served sample_portal (one_subscriber (Some "sub_1") false) eq_refl)
           (signed "active")).
Defined.

(** ** Store failures in the payment webhooks *)

(** X13: an insert that the store answers with an error value does not stop
    the payment webhooks: the update is still sent, and once it is carried
    out the account has [est_boosté = true] although no payment row was
    written; the delivery is answered 200. *)
Theorem payment_insert_refused env sdk storage req session uid m w :
  verified sdk env req (checkout_session_completed session) ->
  if_truthy (js_or (client_reference_id session) (metadata_user_id session)) = Some uid ->
  storage (insert_paiement (logged_payment uid session)) = Refused m ->
  storage (update {| set_stripe_customer_id := None; set_stripe_subscription_id := None;
                     set_est_booste := None; set_est_boosté := Some true |}
             (eq_id uid)) = Served ->
  exists w',
    Pay.webhook env sdk storage req w = (Normal {| status := 200; body := no_body |}, w') /\
    PayBasic.webhook env sdk storage req w
    = (Normal {| status := 200; body := no_body |}, w') /\
    paiements w' = paiements w /\
    users w'
    = alter (fun u => {| stripe_customer_id := stripe_customer_id u;
                         stripe_subscription_id := stripe_subscription_id u;
                         est_booste := est_booste u;
                         est_boosté := true |}) uid (users w).
Proof.
  intros Hver Huid Hrefused Hserved. eexists. split; [|split; [|split]].
  - rewrite (pay_webhook_checkout _ _ _ _ _ _ Hver), Huid.
    fold (logged_payment uid session).
    unfold try_catch, bind, paiements_insert, users_update, ret.
    rewrite Hrefused, Hserved. reflexivity.
  - unfold verified in Hver. unfold PayBasic.webhook, try_catch, bind. simpl.
    rewrite Hver. simpl. rewrite Huid. fold (logged_payment uid session).
    unfold paiements_insert, users_update, ret. rewrite Hrefused, Hserved. reflexivity.
  - reflexivity.
  - simpl. rewrite update_rows_eq_id. reflexivity.
Qed.

Lemma payment_insert_refused_witness :
  exists w',
    Pay.webhook full_env
      (yields (checkout_session_completed (sample_session (Some "u1") None None)))
      (fun q => match q with insert_paiement _ => Refused "duplicate key" | _ => Served end)
      (signed "{}") (world_of {[ "u1" := blank_user ]})
    = (Normal {| status := 200; body := no_body |}, w') /\
    paiements w' = [] /\
    est_boosté <$> users w' !! "u1" = Some true.
Proof.
  destruct (payment_insert_refused full_env
              (yields (checkout_session_completed (sample_session (Some "u1") None None)))
              (fun q => match q with insert_paiement _ => Refused "duplicate key" | _ => Served end)
              (signed "{}") (sample_session (Some "u1") None None) "u1" "duplicate key"
              (world_of {[ "u1" := blank_user ]}) eq_refl eq_refl eq_refl eq_refl)
    as (w' & Hrun & _ & Hpay & Husers).
  exists w'. split; [exact Hrun|]. split; [exact Hpay|].
  rewrite Husers. reflexivity.
Defined.

(** ** Creating a checkout session: the other paths *)

Ltac run_route :=
  unfold index_create_checkout_session, index_create_portal_session,
    Seo.create_checkout_session, Sub.create_checkout_session,
    Seo.create_portal_session, Sub.create_portal_session,
    Pay.create_checkout_session, PayBasic.create_checkout_session, Seo.stripe,
    try_catch, bind, users_select, users_select_result, call_customers_create,
    users_update, call_sessions_create, call_portal_create, ret.

(** X14: a request without [userId] (absent or empty) is answered 400 by
    every route that needs one, before the store or Stripe is called: the
    world is left as it was. *)
Theorem missing_user_id_rejected env sdk storage portal req w :
  truthy (userId req) = false ->
  (forall s, configured s env = true ->
     index_create_checkout_session s env sdk storage req w
     = (Normal {| status := 400; body := json [("error", JStr "userId required")] |}, w) /\
     index_create_portal_session s env sdk storage portal req w
     = (Normal {| status := 400; body := json [("error", JStr "userId required")] |}, w)) /\
  Pay.create_checkout_session env sdk req w
  = (Normal {| status := 400; body := json [("error", JStr "Missing userId")] |}, w) /\
  PayBasic.create_checkout_session env sdk req w
  = (Normal {| status := 400; body := json [("error", JStr "Missing userId")] |}, w).
Proof.
  unfold truthy. intros Hmissing.
  destruct (if_truthy (userId req)) eqn:Huid; [discriminate|].
  split; [|split].
  - intros s Hconf. destruct s; simpl in Hconf; run_route;
      rewrite ?Hconf, Huid; split; reflexivity.
  - run_route. rewrite Huid. reflexivity.
  - run_route. simpl. rewrite Huid. reflexivity.
Qed.

Lemma missing_user_id_rejected_witness :
  index_create_checkout_session seo full_env (sample_sdk status_update) all_served
    {| userId := Some ""; email := None; boostType := None; origin := None |}
    (world_of {[ "u1" := blank_user ]})
  = (Normal {| status := 400; body := json [("error", JStr "userId required")] |},
     world_of {[ "u1" := blank_user ]}).
Proof.
  exact (proj1 (proj1 (missing_user_id_rejected full_env (sample_sdk status_update)
                         all_served sample_portal
                         {| userId := Some ""; email := None; boostType := None;
                            origin := None |}
                         (world_of {[ "u1" := blank_user ]}) eq_refl) seo eq_refl)).
Defined.

(** X15: when the account's row is read with a customer id, index.js makes
    no [customers.create] call and no store write: after the read it only
    creates the session, for the stored customer. *)
Theorem existing_customer_reused s env sdk storage req uid u cid w :
  configured s env = true ->
  if_truthy (userId req) = Some uid ->
  storage (select_stripe_customer_id (eq_id uid)) = Served ->
  users w !! uid = Some u ->
  if_truthy (stripe_customer_id u) = Some cid ->
  exists r w' params,
    index_create_checkout_session s env sdk storage req w = (Normal r, w') /\
    trace w'
    = (trace w ++ [storage_call (select_stripe_customer_id (eq_id uid));
                   stripe_checkout_sessions_create params])%list /\
    users w' = users w /\
    sp_customer params = Some cid /\
    sp_client_reference_id params = uid /\
    r = match sessions_create sdk params with
        | inl url => {| status := 200; body := json [("url", JStr url)] |}
        | inr _ => {| status := 500; body := json [("error", JStr "server error")] |}
        end.
Proof.
  intros Hconf Huid Hselect Hu Hcid.
  destruct s; simpl in Hconf; run_route; rewrite ?Hconf, Huid, Hselect; simpl;
    rewrite Hu; simpl; rewrite Hcid; simpl;
    destruct (sessions_create sdk _) eqn:Hsession; do 3 eexists;
    (split; [reflexivity|]); simpl; rewrite <- ?app_assoc; simpl;
    repeat (split; [reflexivity|]); rewrite Hsession; reflexivity.
Qed.

Lemma existing_customer_reused_witness :
  exists w',
    index_create_checkout_session sub full_env (sample_sdk status_update) all_served
      {| userId := Some "u1"; email := None; boostType := None; origin := None |}
      (one_subscriber None false)
    = (Normal {| status := 200;
                 body := json [("url", JStr "https://checkout.stripe.com/c/cs_1")] |}, w') /\
    users w' = users (one_subscriber None false) /\
    length (trace w') = 2%nat.
Proof.
  destruct (existing_customer_reused sub full_env (sample_sdk status_update) all_served
              {| userId := Some "u1"; email := None; boostType := None; origin := None |}
              "u1" {| stripe_customer_id := Some "cus_1"; stripe_subscription_id := None;
                      est_booste := false; est_boosté := false |}
              "cus_1" (one_subscriber None false) eq_refl eq_refl eq_refl eq_refl eq_refl)
    as (r & w' & params & Hrun & Htrace & Husers & _ & _ & Hr).
  exists w'. subst r. split; [exact Hrun|]. split; [exact Husers|].
  rewrite Htrace. reflexivity.
Defined.

(** X16: the read's error value is not looked at. When the read of the
    account resolves with an error, index.js takes the account to have no
    customer: it creates a new Stripe customer and, once the store carries
    the update out, writes the new id on the account's row, whatever
    customer id the row held. *)
Theorem failed_read_creates_customer s env sdk storage req uid m cid w :
  configured s env = true ->
  if_truthy (userId req) = Some uid ->
  storage (select_stripe_customer_id (eq_id uid)) = Refused m ->
  customers_create sdk {| cp_email := if_truthy (email req); cp_metadata_userId := uid |}
  = inl cid ->
  storage (update {| set_stripe_customer_id := Some (Some cid);
                     set_stripe_subscription_id := None;
                     set_est_booste := None;
                     set_est_boosté := None |} (eq_id uid)) = Served ->
  exists r w' params,
    index_create_checkout_session s env sdk storage req w = (Normal r, w') /\
    trace w'
    = (trace w ++
       [storage_call (select_stripe_customer_id (eq_id uid));
        stripe_customers_create
          {| cp_email := if_truthy (email req); cp_metadata_userId := uid |};
        storage_call (update {| set_stripe_customer_id := Some (Some cid);
                                set_stripe_subscription_id := None;
                                set_est_booste := None;
                                set_est_boosté := None |} (eq_id uid));
        stripe_checkout_sessions_create params])%list /\
    sp_customer params = Some cid /\
    users w'
    = alter (fun u => {| stripe_customer_id := Some cid;
                         stripe_subscription_id := stripe_subscription_id u;
                         est_booste := est_booste u;
                         est_boosté := est_boosté u |}) uid (users w).
Proof.
  intros Hconf Huid Hselect Hcreate Hupdate.
  destruct s; simpl in Hconf; run_route; rewrite ?Hconf, Huid, Hselect; simpl;
    rewrite Hcreate, Hupdate; simpl;
    destruct (sessions_create sdk _) eqn:Hsession; do 3 eexists;
    (split; [reflexivity|]); simpl; rewrite <- ?app_assoc; simpl;
    (split; [reflexivity|]); (split; [reflexivity|]);
    rewrite update_rows_eq_id; reflexivity.
Qed.

Lemma failed_read_creates_customer_witness :
  exists r w',
    index_create_checkout_session sub full_env (sample_sdk status_update)
      (fun q => match q with select_stripe_customer_id _ => Refused "timeout" | _ => Served end)
      {| userId := Some "u1"; email := None; boostType := None; origin := None |}
      (world_of {[ "u1" := subscriber "cus_old" "sub_1" true ]})
    = (Normal r, w') /\
    users w' !! "u1" = Some (subscriber "cus_1" "sub_1" true).
Proof.
  destruct (failed_read_creates_customer sub full_env (sample_sdk status_update)
              (fun q => match q with
                        | select_stripe_customer_id _ => Refused "timeout"
                        | _ => Served
                        end)
              {| userId := Some "u1"; email := None; boostType := None; origin := None |}
              "u1" "timeout" "cus_1"
              (world_of {[ "u1" := subscriber "cus_old" "sub_1" true ]})
              eq_refl eq_refl eq_refl eq_refl eq_refl)
    as (r & w' & params & Hrun & _ & _ & Husers).
  exists r, w'. split; [exact Hrun|]. rewrite Husers. reflexivity.
Defined.

(** X17: when [customers.create] throws, index.js answers 500 with the
    generic body, writes nothing and creates no session: the calls made are
    the read and the failed [customers.create]. *)
Theorem customer_creation_failure s env sdk storage req uid m w :
  configured s env = true ->
  if_truthy (userId req) = Some uid ->
  (forall u, users w !! uid = Some u -> truthy (stripe_customer_id u) = false) ->
  (forall message, storage (select_stripe_customer_id (eq_id uid)) <> Thrown message) ->
  customers_create sdk {| cp_email := if_truthy (email req); cp_metadata_userId := uid |}
  = inr m ->
  exists w',
    index_create_checkout_session s env sdk storage req w
      = (Normal {| status := 500; body := json [("error", JStr "server error")] |}, w') /\
    users w' = users w /\ paiements w' = paiements w /\
    trace w'
    = (trace w ++
       [storage_call (select_stripe_customer_id (eq_id uid));
        stripe_customers_create
          {| cp_email := if_truthy (email req); cp_metadata_userId := uid |}])%list.
Proof.
  intros Hconf Huid Hnone Hselect Hcreate.
  assert (Hfalsy : if_truthy (users w !! uid ≫= stripe_customer_id) = None).
  { destruct (users w !! uid) as [u|] eqn:Hu; [|reflexivity]. simpl.
    specialize (Hnone u eq_refl). unfold truthy in Hnone.
    destruct (if_truthy (stripe_customer_id u)); [discriminate|reflexivity]. }
  destruct s; simpl in Hconf; run_route; rewrite ?Hconf, Huid;
    destruct (storage (select_stripe_customer_id (eq_id uid))) as [|m'|m'] eqn:Hs;
    try (destruct (Hselect m' eq_refl)); simpl;
    rewrite ?Hfalsy, Hcreate; simpl; eexists;
    (split; [reflexivity|]); simpl; rewrite <- ?app_assoc; repeat split; reflexivity.
Qed.

Lemma customer_creation_failure_witness :
  exists w',
    index_create_checkout_session sub full_env
      {| constructEvent := constructEvent (sample_sdk status_update);
         customers_create := fun _ => inr "card network down";
         sessions_create := sessions_create (sample_sdk status_update) |}
      all_served
      {| userId := Some "u1"; email := None; boostType := None; origin := None |}
      (world_of {[ "u1" := blank_user ]})
    = (Normal {| status := 500; body := json [("error", JStr "server error")] |}, w') /\
    users w' = {[ "u1" := blank_user ]}.
Proof.
  destruct (customer_creation_failure sub full_env
              {| constructEvent := constructEvent (sample_sdk status_update);
                 customers_create := fun _ => inr "card network down";
                 sessions_create := sessions_create (sample_sdk status_update) |}
              all_served
              {| userId := Some "u1"; email := None; boostType := None; origin := None |}
              "u1" "card network down" (world_of {[ "u1" := blank_user ]})
              eq_refl eq_refl)
    as (w' & Hrun & Husers & _).
  - intros u Hu. vm_compute in Hu. injection Hu as <-. reflexivity.
  - discriminate.
  - reflexivity.
  - exists w'. split; [exact Hrun|exact Husers].
Defined.

Ltac case_oracles :=
  repeat match goal with
         | |- context [if ?b then _ else _] => destruct b eqn:?
         | |- context [match ?x with _ => _ end] =>
             lazymatch type of x with
             | Outcome => destruct x eqn:?
             | sum _ _ => destruct x eqn:?
             | option _ => destruct x eqn:?
             | bool => destruct x eqn:?
             end
         end; simpl.

(** The table a checkout-session request of index.js leaves: untouched, or
    with the update of the customer id of the request's account. *)
Lemma index_checkout_users s env sdk storage req w :
  paiements (index_create_checkout_session s env sdk storage req w).2 = paiements w /\
  (users (index_create_checkout_session s env sdk storage req w).2 = users w \/
   exists uid cid,
     if_truthy (userId req) = Some uid /\
     users (index_create_checkout_session s env sdk storage req w).2
     = update_rows {| set_stripe_customer_id := Some (Some cid);
                      set_stripe_subscription_id := None;
                      set_est_booste := None;
                      set_est_boosté := None |} (eq_id uid) (users w)).
Proof.
  destruct s; run_route; case_oracles; case_oracles;
    (split; [reflexivity|]); try (left; reflexivity); right; eauto.
Qed.

(** X18: a checkout-session request changes nothing in the store but,
    possibly, the [stripe_customer_id] of the account it names: it adds and
    removes no account, leaves [paiements], the flags and the subscription
    ids of every account, and every column of the other accounts. The
    payment servers write nothing at all. *)
Theorem checkout_session_frame env sdk storage req w :
  (forall s,
     paiements (index_create_checkout_session s env sdk storage req w).2 = paiements w /\
     dom (users (index_create_checkout_session s env sdk storage req w).2) = dom (users w) /\
     forall id u, users w !! id = Some u ->
       exists c,
         users (index_create_checkout_session s env sdk storage req w).2 !! id
         = Some {| stripe_customer_id := c;
                   stripe_subscription_id := stripe_subscription_id u;
                   est_booste := est_booste u;
                   est_boosté := est_boosté u |} /\
         (if_truthy (userId req) <> Some id -> c = stripe_customer_id u)) /\
  (users (Pay.create_checkout_session env sdk req w).2 = users w /\
   paiements (Pay.create_checkout_session env sdk req w).2 = paiements w) /\
  (users (PayBasic.create_checkout_session env sdk req w).2 = users w /\
   paiements (PayBasic.create_checkout_session env sdk req w).2 = paiements w).
Proof.
  split; [|split].
  - intros s. destruct (index_checkout_users s env sdk storage req w)
      as [Hpay [Hsame | (uid & cid & Huid & Hwritten)]].
    + split; [exact Hpay|]. rewrite Hsame. split; [reflexivity|].
      intros id u Hu. exists (stripe_customer_id u). split; [|reflexivity].
      rewrite Hu. destruct u; reflexivity.
    + split; [exact Hpay|]. rewrite Hwritten. split; [apply dom_update_rows|].
      intros id u Hu. rewrite lookup_update_rows, Hu. simpl.
      destruct (String.eqb_spec id uid) as [->|Hne].
      * exists (Some cid). split; [reflexivity|]. intros Hother. congruence.
      * exists (stripe_customer_id u). split; [destruct u; reflexivity|reflexivity].
  - run_route. case_oracles; split; reflexivity.
  - run_route. simpl. case_oracles; split; reflexivity.
Qed.

(** X19: a checkout-session request to index.js is always answered, and a
    failure never carries the message of what failed: the answer is 501
    (first server without its client), 400 [userId required], 200 with the
    link [checkout.sessions.create] returned, or 500 with the fixed body
    [server error]. The payment servers answer 400, 200 with the link, or
    500 with the message of the error Stripe threw. *)
Theorem checkout_session_answers env sdk storage req w :
  (forall s, exists r w',
      index_create_checkout_session s env sdk storage req w = (Normal r, w') /\
      (r = {| status := 501; body := json [("error", JStr "Stripe not configured")] |} \/
       r = {| status := 400; body := json [("error", JStr "userId required")] |} \/
       r = {| status := 500; body := json [("error", JStr "server error")] |} \/
       exists params url,
         sessions_create sdk params = inl url /\
         sp_price params = STRIPE_PRICE_ID env /\
         if_truthy (userId req) = Some (sp_client_reference_id params) /\
         r = {| status := 200; body := json [("url", JStr url)] |})) /\
  (exists r w',
      Pay.create_checkout_session env sdk req w = (Normal r, w') /\
      (r = {| status := 400; body := json [("error", JStr "Missing userId")] |} \/
       (exists params m,
           sessions_create sdk params = inr m /\
           r = {| status := 500; body := json [("error", JStr m)] |}) \/
       exists params url,
         sessions_create sdk params = inl url /\
         sp_price params = STRIPE_PRICE_ID env /\
         if_truthy (userId req) = Some (sp_client_reference_id params) /\
         r = {| status := 200; body := json [("url", JStr url)] |})).
Proof.
  split.
  - intros s. destruct s; run_route; case_oracles; case_oracles;
      do 2 eexists; (split; [reflexivity|]);
      first [ left; reflexivity
            | right; left; reflexivity
            | right; right; left; reflexivity
            | right; right; right; do 2 eexists;
              split; [eassumption|]; split; [reflexivity|]; split; reflexivity ].
  - run_route. case_oracles; do 2 eexists; (split; [reflexivity|]);
      first [ left; reflexivity
            | right; left; do 2 eexists; split; [eassumption|reflexivity]
            | right; right; do 2 eexists;
              split; [eassumption|]; split; [reflexivity|]; split; reflexivity ].
Qed.



(** X21: the two payment servers create the same session and give the same
    answer for every request whose [origin] is absent or a string that is not
    empty. For an [origin] that is empty or [null] they differ: the server
    with [/price] falls back to [https://app.parrainsport.fr] ([origin || ...]),
    the other one, whose default fires for an absent key only, keeps the
    value and sends a success URL that starts at [/success] for the empty
    string and at [null/success] for [null]. *)
Theorem payment_servers_agree_on_origin env sdk req w :
  (origin req = None \/ (exists o, origin req = Some (Some o) /\ o <> "") ->
   Pay.create_checkout_session env sdk req w
   = PayBasic.create_checkout_session env sdk req w) /\
  (forall uid,
     origin req = Some (Some "") \/ origin req = Some None ->
     if_truthy (userId req) = Some uid ->
     exists p1 p2,
       trace (Pay.create_checkout_session env sdk req w).2
       = (trace w ++ [stripe_checkout_sessions_create p1])%list /\
       trace (PayBasic.create_checkout_session env sdk req w).2
       = (trace w ++ [stripe_checkout_sessions_create p2])%list /\
       sp_success_url p1
       = "https://app.parrainsport.fr/success?session_id={CHECKOUT_SESSION_ID}" /\
       sp_cancel_url p1 = "https://app.parrainsport.fr/profile" /\
       (origin req = Some (Some "") ->
        sp_success_url p2 = "/success?session_id={CHECKOUT_SESSION_ID}" /\
        sp_cancel_url p2 = "/profile") /\
       (origin req = Some None ->
        sp_success_url p2 = "null/success?session_id={CHECKOUT_SESSION_ID}" /\
        sp_cancel_url p2 = "null/profile")).
Proof.
  split.
  - intros Horigin.
    assert (Hsame : or_default (present (origin req)) "https://app.parrainsport.fr"
                    = js_template (destructured "https://app.parrainsport.fr" (origin req))).
    { destruct Horigin as [-> | (o & -> & Hne)]; [reflexivity|].
      unfold or_default, if_truthy. simpl.
      destruct (String.eqb_spec o ""); [congruence|reflexivity]. }
    run_route. simpl. rewrite Hsame. reflexivity.
  - intros uid Horigin Huid. run_route. simpl. rewrite Huid.
    destruct Horigin as [Horigin | Horigin]; rewrite Horigin;
      unfold or_default; simpl;
      destruct (sessions_create sdk _); destruct (sessions_create sdk _);
      do 2 eexists; (split; [reflexivity|]); (split; [reflexivity|]);
      (split; [reflexivity|]); (split; [reflexivity|]);
      split; intros Heq; first [discriminate Heq | split; reflexivity].
Qed.

Lemma payment_servers_agree_on_origin_witness :
  Pay.create_checkout_session full_env (sample_sdk status_update)
    {| userId := Some "u1"; email := None; boostType := None;
       origin := Some (Some "https://staging.example") |} (world_of ∅)
  = PayBasic.create_checkout_session full_env (sample_sdk status_update)
      {| userId := Some "u1"; email := None; boostType := None;
         origin := Some (Some "https://staging.example") |} (world_of ∅).
Proof.
  apply (proj1 (payment_servers_agree_on_origin full_env (sample_sdk status_update)
                  {| userId := Some "u1"; email := None; boostType := None;
                     origin := Some (Some "https://staging.example") |} (world_of ∅))).
  right. exists "https://staging.example". split; [reflexivity|discriminate].
Defined.

(** ** The customer portal *)

(** X22: for an account without a stored customer (no row, a null or empty
    customer id, or a read that resolves with an error) the portal route of
    index.js answers 400 [No customer] after the read alone: the trace of
    external calls gains the read and nothing else, so
    [billingPortal.sessions.create] is not called, and nothing is written.
    With a customer id stored and read, the trace gains the read and then
    the call of [billingPortal.sessions.create] for that customer, with a
    return URL under [CLIENT_BASE_URL] (the first server drops its trailing
    slashes, the second does not). *)
Theorem portal_without_customer s env sdk storage portal req uid w :
  configured s env = true ->
  if_truthy (userId req) = Some uid ->
  (((exists m, storage (select_stripe_customer_id (eq_id uid)) = Refused m) \/
    (storage (select_stripe_customer_id (eq_id uid)) = Served /\
     truthy (users w !! uid ≫= stripe_customer_id) = false)) ->
   index_create_portal_session s env sdk storage portal req w
   = (Normal {| status := 400; body := json [("error", JStr "No customer")] |},
      log (storage_call (select_stripe_customer_id (eq_id uid))) w)) /\
  (forall cid,
     storage (select_stripe_customer_id (eq_id uid)) = Served ->
     if_truthy (users w !! uid ≫= stripe_customer_id) = Some cid ->
     trace (index_create_portal_session s env sdk storage portal req w).2
     = (trace w ++
        [storage_call (select_stripe_customer_id (eq_id uid));
         stripe_billingPortal_sessions_create
           {| portal_customer := cid;
              portal_return_url :=
                match s with
                | seo =>
                    strip_trailing_slashes
                      (default "http://localhost:5173" (CLIENT_BASE_URL env))
                | sub => default "http://localhost:5173" (CLIENT_BASE_URL env)
                end +:+ "/profil" |}])%list).
Proof.
  intros Hconf Huid. split.
  - intros [[m Hrefused] | [Hserved Hnone]];
      destruct s; simpl in Hconf; run_route; rewrite ?Hconf, Huid.
    + rewrite Hrefused. reflexivity.
    + rewrite Hrefused. reflexivity.
    + rewrite Hserved. unfold truthy in Hnone.
      destruct (if_truthy (users w !! uid ≫= stripe_customer_id)) eqn:Hc; [discriminate|].
      simpl. rewrite Hc. reflexivity.
    + rewrite Hserved. unfold truthy in Hnone.
      destruct (if_truthy (users w !! uid ≫= stripe_customer_id)) eqn:Hc; [discriminate|].
      simpl. rewrite Hc. reflexivity.
  - intros cid Hserved Hcid.
    destruct s; simpl in Hconf; run_route; rewrite ?Hconf, Huid, Hserved; simpl;
      rewrite Hcid; simpl; destruct (portal _); simpl;
      rewrite <- ?app_assoc; reflexivity.
Qed.

Lemma portal_without_customer_witness :
  index_create_portal_session seo full_env (sample_sdk status_update) all_served
    sample_portal
    {| userId := Some "u1"; email := None; boostType := None; origin := None |}
    (world_of {[ "u1" := blank_user ]})
  = (Normal {| status := 400; body := json [("error", JStr "No customer")] |},
     log (storage_call (select_stripe_customer_id (eq_id "u1")))
       (world_of {[ "u1" := blank_user ]})).
Proof.
  apply (proj1 (portal_without_customer seo full_env (sample_sdk status_update)
                  all_served sample_portal
                  {| userId := Some "u1"; email := None; boostType := None;
                     origin := None |}
                  "u1" (world_of {[ "u1" := blank_user ]}) eq_refl eq_refl)).
  right. split; reflexivity.
Defined.

(** X23: the portal route of index.js never writes: whatever the request,
    the store and Stripe answer, the tables are left as they were. It always
    answers, with 501, 400, 200 and the link of a portal session created for
    the customer id stored on the account, or 500 with the fixed body
    [server error]. *)
Theorem portal_session_answers s env sdk storage portal req w :
  exists r w',
    index_create_portal_session s env sdk storage portal req w = (Normal r, w') /\
    users w' = users w /\ paiements w' = paiements w /\
    (r = {| status := 501; body := json [("error", JStr "Stripe not configured")] |} \/
     r = {| status := 400; body := json [("error", JStr "userId required")] |} \/
     r = {| status := 400; body := json [("error", JStr "No customer")] |} \/
     r = {| status := 500; body := json [("error", JStr "server error")] |} \/
     exists uid u params url,
       if_truthy (userId req) = Some uid /\
       users w !! uid = Some u /\
       stripe_customer_id u = Some (portal_customer params) /\
       portal params = inl url /\
       r = {| status := 200; body := json [("url", JStr url)] |}).
Proof.
  destruct s; run_route; simpl;
    repeat match goal with
           | |- context [if ?b then _ else _] => destruct b eqn:?
           | |- context [match if_truthy ?v with _ => _ end] =>
               destruct (if_truthy v) eqn:?
           | |- context [match storage ?q with _ => _ end] => destruct (storage q) eqn:?
           | |- context [match portal ?q with _ => _ end] => destruct (portal q) eqn:?
           end; simpl;
    do 2 eexists; (split; [reflexivity|]); (split; [reflexivity|]);
    (split; [reflexivity|]);
    first [ left; reflexivity
          | right; left; reflexivity
          | right; right; left; reflexivity
          | right; right; right; left; reflexivity
          | idtac ].
  all: simpl in *; try congruence; right; right; right; right.
  all: match goal with
       | H : if_truthy ?x = Some ?c |- _ =>
           match x with
           | context [@lookup _ _ _ _ ?k ?m] =>
               destruct (m !! k) as [u|] eqn:Hu; simpl in H; [|discriminate];
               apply if_truthy_Some in H as [Hc _];
               exists k, u; do 2 eexists;
               split; [reflexivity|]; split; [exact Hu|];
               split; [|split; [eassumption|reflexivity]]; exact Hc
           end
       end.
Qed.

(** X24: a checkout-session request of index.js for a [userId] that names
    no account still creates a Stripe customer and a session for it, and
    answers 200, but the customer id is stored nowhere: the update matches
    no row and the table is left as it was. *)
Theorem unknown_account_customer_not_stored s env sdk storage req uid cid url w :
  configured s env = true ->
  if_truthy (userId req) = Some uid ->
  users w !! uid = None ->
  storage (select_stripe_customer_id (eq_id uid)) = Served ->
  customers_create sdk {| cp_email := if_truthy (email req); cp_metadata_userId := uid |}
  = inl cid ->
  (forall m, storage (update {| set_stripe_customer_id := Some (Some cid);
                                set_stripe_subscription_id := None;
                                set_est_booste := None;
                                set_est_boosté := None |} (eq_id uid)) <> Thrown m) ->
  (forall params, sessions_create sdk params = inl url) ->
  exists w' params,
    index_create_checkout_session s env sdk storage req w
    = (Normal {| status := 200; body := json [("url", JStr url)] |}, w') /\
    users w' = users w /\
    trace w'
    = (trace w ++
       [storage_call (select_stripe_customer_id (eq_id uid));
        stripe_customers_create
          {| cp_email := if_truthy (email req); cp_metadata_userId := uid |};
        storage_call (update {| set_stripe_customer_id := Some (Some cid);
                                set_stripe_subscription_id := None;
                                set_est_booste := None;
                                set_est_boosté := None |} (eq_id uid));
        stripe_checkout_sessions_create params])%list /\
    sp_customer params = Some cid.
Proof.
  intros Hconf Huid Hnone Hselect Hcreate Hupdate Hsession.
  assert (Hrows : update_rows {| set_stripe_customer_id := Some (Some cid);
                                 set_stripe_subscription_id := None;
                                 set_est_booste := None;
                                 set_est_boosté := None |} (eq_id uid) (users w)
                  = users w).
  { apply update_rows_no_match. intros id u Hu. simpl.
    destruct (String.eqb_spec id uid) as [->|]; [congruence|reflexivity]. }
  destruct s; simpl in Hconf; run_route; rewrite ?Hconf, Huid, Hselect; simpl;
    rewrite Hnone; simpl; rewrite Hcreate;
    destruct (storage (update _ _)) as [|m|m] eqn:Hu;
    try (destruct (Hupdate m eq_refl)); simpl; rewrite Hsession;
    do 2 eexists; (split; [reflexivity|]); simpl; rewrite ?Hrows;
    (split; [reflexivity|]); rewrite <- ?app_assoc; simpl;
    split; reflexivity.
Qed.

Lemma unknown_account_customer_not_stored_witness :
  exists w',
    index_create_checkout_session sub full_env (sample_sdk status_update) all_served
      {| userId := Some "ghost"; email := None; boostType := None; origin := None |}
      (world_of {[ "u1" := blank_user ]})
    = (Normal {| status := 200;
                 body := json [("url", JStr "https://checkout.stripe.com/c/cs_1")] |}, w') /\
    users w' = {[ "u1" := blank_user ]}.
Proof.
  assert (Hnone : users (world_of {[ "u1" := blank_user ]}) !! "ghost" = None)
    by (vm_compute; reflexivity).
  destruct (unknown_account_customer_not_stored sub full_env (sample_sdk status_update)
              all_served
              {| userId := Some "ghost"; email := None; boostType := None; origin := None |}
              "ghost" "cus_1" "https://checkout.stripe.com/c/cs_1"
              (world_of {[ "u1" := blank_user ]})
              eq_refl eq_refl Hnone eq_refl eq_refl)
    as (w' & params & Hrun & Husers & _).
  - discriminate.
  - reflexivity.
  - exists w'. split; [exact Hrun|exact Husers].
Defined.

(** ** Events the webhooks do not act on *)

(** X25: the payment webhooks act on [checkout.session.completed] only:
    every other verified event, subscription and invoice events included,
    is answered 200 with the world left as it was. The webhook of index.js
    does the same for the event types outside its four. *)
Theorem unhandled_events_acknowledged env sdk storage req event w :
  verified sdk env req event ->
  ((forall session, event <> checkout_session_completed session) ->
   Pay.webhook env sdk storage req w = (Normal {| status := 200; body := no_body |}, w) /\
   PayBasic.webhook env sdk storage req w
   = (Normal {| status := 200; body := no_body |}, w)) /\
  (forall s type,
     configured s env = true -> event = other_event type ->
     index_webhook s env sdk storage req w
       = (Normal {| status := 200; body := json [("received", JBool true)] |}, w)).
Proof.
  intros Hver. split.
  - intros Hother. unfold verified in Hver.
    unfold Pay.webhook, PayBasic.webhook, try_catch, bind. simpl. rewrite Hver.
    destruct event as [session| | | |]; try (split; reflexivity).
    destruct (Hother session eq_refl).
  - intros s type' Hconf ->.
    rewrite (index_webhook_verified _ _ _ _ _ _ _ Hconf Hver). reflexivity.
Qed.

Lemma unhandled_events_acknowledged_witness :
  Pay.webhook full_env (sample_sdk status_update) all_served (signed "canceled")
    (one_subscriber (Some "sub_1") true)
  = (Normal {| status := 200; body := no_body |}, one_subscriber (Some "sub_1") true).
Proof.
  apply (proj1 (unhandled_events_acknowledged full_env (sample_sdk status_update) all_served
                  (signed "canceled") (status_update "canceled")
                  (one_subscriber (Some "sub_1") true) eq_refl)).
  discriminate.
Defined.
